(** * The heuristic fraud-scoring engine of the analyze route

    A shallow embedding of [generateMockAnalysis], [callMLService] and
    [POST] from the analyze route handler, with the properties of the
    listing-scoring specification stated over it.

    Numbers.  A JavaScript number is modelled by [num]: NaN, the two
    infinities, or a finite value.  Finite values are exact rationals kept
    in lowest terms; the rounding of binary64 arithmetic and the sign of
    zero are not modelled.

    Values.  The request body is whatever [JSON.parse] produced, so the
    engine's input is modelled by [jsval], and every coercion the source
    relies on (truthiness, [ToNumber], [ToPropertyKey], the relational
    operators, strict equality) is written out.  The two conversions
    between strings and numbers belong to the language runtime and are
    taken as parameters of the development.

    Strings.  A string is a sequence of 8-bit characters; [toLowerCase]
    is modelled on the ASCII letters.

    Effects.  A function that can throw returns a [result]; the clock and
    the outcome of the backend call are arguments. *)

From Stdlib Require Import QArith Qabs Lqa ZArith Lia.
From Stdlib Require Import List String Ascii Bool.
Import ListNotations.

Set Warnings "-register-all".

Local Open Scope string_scope.
Local Open Scope Q_scope.

(* ===================================================================== *)
(** ** Numbers *)
(* ===================================================================== *)

Module Num.

Inductive num : Type :=
| NaN
| PInf
| NInf
| Fin (q : Q).

(** A finite result, in lowest terms. *)
Definition fin (q : Q) : num := Fin (Qred q).

Definition of_nat (n : nat) : num := Fin (inject_Z (Z.of_nat n)).

(** Ordering of two numbers; [None] when either is NaN. *)
Definition cmp (x y : num) : option comparison :=
  match x, y with
  | NaN, _ | _, NaN => None
  | PInf, PInf => Some Eq
  | PInf, _ => Some Gt
  | _, PInf => Some Lt
  | NInf, NInf => Some Eq
  | NInf, _ => Some Lt
  | _, NInf => Some Gt
  | Fin a, Fin b => Some (a ?= b)
  end.

(** [x < y], [x > y], [x >= y], [x <= y] and [x === y] on numbers: every
    one of them is false as soon as an operand is NaN. *)
Definition lt (x y : num) : bool :=
  match cmp x y with Some Lt => true | _ => false end.

Definition gt (x y : num) : bool := lt y x.

Definition ge (x y : num) : bool :=
  match cmp x y with Some Gt | Some Eq => true | _ => false end.

Definition le (x y : num) : bool := ge y x.

Definition eq (x y : num) : bool :=
  match cmp x y with Some Eq => true | _ => false end.

Definition neg (x : num) : num :=
  match x with
  | NaN => NaN
  | PInf => NInf
  | NInf => PInf
  | Fin q => fin (- q)
  end.

Definition add (x y : num) : num :=
  match x, y with
  | NaN, _ | _, NaN => NaN
  | PInf, NInf | NInf, PInf => NaN
  | PInf, _ | _, PInf => PInf
  | NInf, _ | _, NInf => NInf
  | Fin a, Fin b => fin (a + b)
  end.

Definition sub (x y : num) : num := add x (neg y).

(** The infinity with the sign of [q]; NaN for zero. *)
Definition inf_signed (q : Q) : num :=
  match q ?= 0 with
  | Eq => NaN
  | Gt => PInf
  | Lt => NInf
  end.

Definition mul (x y : num) : num :=
  match x, y with
  | NaN, _ | _, NaN => NaN
  | PInf, PInf | NInf, NInf => PInf
  | PInf, NInf | NInf, PInf => NInf
  | PInf, Fin q | Fin q, PInf => inf_signed q
  | NInf, Fin q | Fin q, NInf => inf_signed (- q)
  | Fin a, Fin b => fin (a * b)
  end.

(** Division; a finite zero divisor is taken as positive zero. *)
Definition div (x y : num) : num :=
  match x, y with
  | NaN, _ | _, NaN => NaN
  | (PInf | NInf), (PInf | NInf) => NaN
  | PInf, Fin q => if Qle_bool 0 q then PInf else NInf
  | NInf, Fin q => if Qle_bool 0 q then NInf else PInf
  | Fin _, (PInf | NInf) => Fin 0
  | Fin a, Fin b =>
      match b ?= 0 with
      | Eq => inf_signed a
      | _ => fin (a / b)
      end
  end.

(** [Math.abs] *)
Definition abs (x : num) : num :=
  match x with
  | NaN => NaN
  | PInf | NInf => PInf
  | Fin q => fin (Qabs q)
  end.

(** [Math.min] of two arguments: NaN when either is NaN. *)
Definition min (x y : num) : num :=
  match cmp x y with
  | None => NaN
  | Some Gt => y
  | Some _ => x
  end.

(** [x] is finite and lies in the closed interval from [lo] to [hi]. *)
Definition within (lo hi : Q) (x : num) : Prop :=
  exists q, x = Fin q /\ lo <= q <= hi.

End Num.

Import Num.

(* ===================================================================== *)
(** ** Values, exceptions and strings *)
(* ===================================================================== *)

(** What [JSON.parse] can produce, together with [undefined], the value of
    a property the object does not have.  An object is the list of its own
    properties. *)
Inductive jsval : Type :=
| JUndefined
| JNull
| JBool (b : bool)
| JNum (n : num)
| JStr (s : string)
| JArr (elems : list jsval)
| JObj (props : list (string * jsval)).

(** A computation either returns or throws. *)
Inductive exn : Type :=
| TypeError
| SyntaxError.

Inductive result (A : Type) : Type :=
| Ok (a : A)
| Throw (e : exn).

Arguments Ok {A} a.
Arguments Throw {A} e.

Definition bind {A B : Type} (c : result A) (k : A -> result B) : result B :=
  match c with
  | Ok a => k a
  | Throw e => Throw e
  end.

Declare Scope js_scope.
Delimit Scope js_scope with js.
Notation "x <- c ;; k" := (bind c (fun x => k))
  (at level 61, c at next level, right associativity) : js_scope.
Local Open Scope js_scope.

(** Own-property lookup. *)
Fixpoint getOwn (k : string) (props : list (string * jsval)) : option jsval :=
  match props with
  | [] => None
  | (k', v) :: rest => if String.eqb k k' then Some v else getOwn k rest
  end.

Definition hasOwn (k : string) (props : list (string * jsval)) : bool :=
  match getOwn k props with Some _ => true | None => false end.

(** [s.includes(w)] *)
Fixpoint includes (s w : string) : bool :=
  if String.prefix w s then true
  else match s with
       | EmptyString => false
       | String _ s' => includes s' w
       end.

(** [s.toLowerCase()] on the ASCII letters; other characters are kept. *)
Definition lower_ascii (c : ascii) : ascii :=
  let n := N_of_ascii c in
  if ((65 <=? n) && (n <=? 90))%N then ascii_of_N (n + 32) else c.

Fixpoint toLowerCase (s : string) : string :=
  match s with
  | EmptyString => EmptyString
  | String c s' => String (lower_ascii c) (toLowerCase s')
  end.

(** Truthiness, as used by [!v], [v || w] and [v && w]. *)
Definition ToBoolean (v : jsval) : bool :=
  match v with
  | JUndefined | JNull => false
  | JBool b => b
  | JNum n => negb (match n with NaN => true | _ => Num.eq n (Fin 0) end)
  | JStr s => negb (String.eqb s "")
  | JArr _ | JObj _ => true
  end.

(** [typeof v === "number"] *)
Definition is_number (v : jsval) : bool :=
  match v with JNum _ => true | _ => false end.

(** [Array.isArray(v)] *)
Definition isArray (v : jsval) : bool :=
  match v with JArr _ => true | _ => false end.

(** [v.length] of an array *)
Definition arrayLength (v : jsval) : nat :=
  match v with JArr elems => List.length elems | _ => 0%nat end.

(** [v === undefined] *)
Definition is_undefined (v : jsval) : bool :=
  match v with JUndefined => true | _ => false end.

(** [v === 0]: strict equality with a number never converts. *)
Definition strict_eq_num (v : jsval) (n : num) : bool :=
  match v with JNum m => Num.eq m n | _ => false end.

Section Runtime.

(** The runtime's conversion of a string to a number and of a number to a
    string. *)
Variable StringToNumber : string -> num.
Variable NumberToString : num -> string.

(** [ToString], applied to the primitive that [ToPrimitive] returns.  An
    array is joined with commas, [null] and [undefined] elements giving the
    empty string.  A parsed object has no callable member of its own, so
    it converts to ["[object Object]"] through the inherited [toString],
    unless an own [toString] property shadows it: then no conversion
    method is left and the conversion throws. *)
Fixpoint ToString (v : jsval) : result string :=
  match v with
  | JUndefined => Ok "undefined"
  | JNull => Ok "null"
  | JBool true => Ok "true"
  | JBool false => Ok "false"
  | JNum n => Ok (NumberToString n)
  | JStr s => Ok s
  | JArr elems =>
      (fix join (l : list jsval) : result string :=
         match l with
         | [] => Ok ""
         | x :: rest =>
             sx <- match x with
                   | JUndefined | JNull => Ok ""
                   | _ => ToString x
                   end ;;
             match rest with
             | [] => Ok sx
             | _ => sr <- join rest ;; Ok (sx ++ "," ++ sr)
             end
         end) elems
  | JObj props =>
      if hasOwn "toString" props then Throw TypeError
      else Ok "[object Object]"
  end.

(** [ToNumber]; arrays and objects go through their string form. *)
Definition ToNumber (v : jsval) : result num :=
  match v with
  | JUndefined => Ok NaN
  | JNull => Ok (Fin 0)
  | JBool true => Ok (Fin 1)
  | JBool false => Ok (Fin 0)
  | JNum n => Ok n
  | JStr s => Ok (StringToNumber s)
  | JArr _ | JObj _ => s <- ToString v ;; Ok (StringToNumber s)
  end.

(** [ToPropertyKey], for [obj[v]]. *)
Definition ToPropertyKey (v : jsval) : result string := ToString v.

(** [v >= n] and [v < n] against a number literal. *)
Definition js_ge (v : jsval) (n : num) : result bool :=
  m <- ToNumber v ;; Ok (Num.ge m n).

Definition js_lt (v : jsval) (n : num) : result bool :=
  m <- ToNumber v ;; Ok (Num.lt m n).

(* ===================================================================== *)
(** ** The heuristic engine: [generateMockAnalysis] *)
(* ===================================================================== *)

Inductive Label : Type :=
| safe
| suspicious
| high_risk.

Record FeatureContribution : Type := mkFeature {
  feature : string;
  contribution : num
}.

Record AnalysisResult : Type := mkResult {
  score : num;
  label : Label;
  explanation : list FeatureContribution;
  model_version : string;
  timestamp : string
}.

(** The properties of [data] the route reads; a property the object does
    not have is [JUndefined]. *)
Record Data : Type := mkData {
  title : jsval;
  price : jsval;
  seller : jsval;
  rating : jsval;
  review_count : jsval;
  category : jsval;
  images : jsval
}.

(** [(v || "").toLowerCase()]: only a string has the method. *)
Definition lowered (v : jsval) : result string :=
  match (if ToBoolean v then v else JStr "") with
  | JStr s => Ok (toLowerCase s)
  | _ => Throw TypeError
  end.

Definition suspiciousWords : list string :=
  ["free"; "wow"; "amazing"; "limited"; "urgent"; "exclusive"; "fake";
   "replica"].

Definition genericNames : list string := ["seller"; "shop"; "store"; "mall"].

(** The own properties of the [categoryRanges] literal. *)
Definition categoryRanges : list (string * (num * num)) :=
  [("electronics", (Fin 200, Fin 2000));
   ("clothing", (Fin 10, Fin 200));
   ("jewelry", (Fin 50, Fin 5000));
   ("watches", (Fin 100, Fin 10000));
   ("books", (Fin 5, Fin 50))].

(** The literal is an ordinary object, so a lookup that misses its own
    properties continues in [Object.prototype], whose members are functions
    (and, for [__proto__], the prototype object itself). *)
Definition objectPrototypeNames : list string :=
  ["constructor"; "__proto__"; "hasOwnProperty"; "isPrototypeOf";
   "propertyIsEnumerable"; "toLocaleString"; "toString"; "valueOf";
   "__defineGetter__"; "__defineSetter__"; "__lookupGetter__";
   "__lookupSetter__"].

Inductive member : Type :=
| Pair (lo hi : num)
| Inherited.

Fixpoint ownRange (k : string) (t : list (string * (num * num)))
  : option (num * num) :=
  match t with
  | [] => None
  | (k', r) :: rest => if String.eqb k k' then Some r else ownRange k rest
  end.

(** [categoryRanges[k]]; [None] is [undefined]. *)
Definition categoryRanges_get (k : string) : option member :=
  match ownRange k categoryRanges with
  | Some (lo, hi) => Some (Pair lo hi)
  | None =>
      if existsb (String.eqb k) objectPrototypeNames then Some Inherited
      else None
  end.

(** [range[i]]; [None] is [undefined]. *)
Definition range_at (r : member) (i : nat) : option num :=
  match r, i with
  | Pair lo _, 0%nat => Some lo
  | Pair _ hi, 1%nat => Some hi
  | _, _ => None
  end.

(** An arithmetic operand that is a number or [undefined]. *)
Definition operand (o : option num) : num :=
  match o with Some n => n | None => NaN end.

(** [categoryRanges[key] || [1, 10000]]: every member found is truthy. *)
Definition rangeFor (key : string) : member :=
  match categoryRanges_get key with
  | Some r => r
  | None => Pair (Fin 1) (Fin 10000)
  end.

(** [(range[0] + range[1]) / 2] *)
Definition median (range : member) : num :=
  div (add (operand (range_at range 0)) (operand (range_at range 1))) (Fin 2).

(** The constants and conditions computed by the body of
    [generateMockAnalysis], in source order.  The two conditions that the
    source evaluates a second time inside the returned object are pure, so
    they are computed once. *)
Record Locals : Type := mkLocals {
  wordMatches : nat;
  medianPrice : num;
  priceDeviation : num;
  ratingAnomaly : bool;      (* data.rating >= 4.9 && data.review_count < 10 *)
  zeroReviews : bool;        (* data.review_count === 0 *)
  genericSeller : bool;      (* genericNames.some((n) => seller.includes(n)) *)
  imageCount : nat
}.

Definition locals (data : Data) : result Locals :=
  title <- lowered (title data) ;;
  let wordMatches :=
    List.length (filter (fun w => includes title w) suspiciousWords) in
  key <- ToPropertyKey (category data) ;;
  let range := rangeFor key in
  let medianPrice := median range in
  p <- ToNumber (price data) ;;
  let priceDeviation := div (abs (sub p medianPrice)) medianPrice in
  highRating <- js_ge (rating data) (fin 4.9) ;;
  ratingAnomaly <-
    match highRating with
    | true => js_lt (review_count data) (Fin 10)
    | false => Ok false
    end ;;
  let zeroReviews := strict_eq_num (review_count data) (Fin 0) in
  seller <- lowered (seller data) ;;
  let genericSeller := existsb (fun n => includes seller n) genericNames in
  let imageCount :=
    if ToBoolean (images data) && isArray (images data)
    then arrayLength (images data)
    else 0%nat in
  Ok (mkLocals wordMatches medianPrice priceDeviation ratingAnomaly
        zeroReviews genericSeller imageCount).

(** The running total [suspiciousness] after the last [+=]. *)
Definition suspiciousness (l : Locals) : num :=
  let s := Fin 0 in
  let s := add s (mul (of_nat (wordMatches l)) (fin 0.15)) in
  let s := add s (min (mul (priceDeviation l) (fin 0.2)) (fin 0.2)) in
  let s := if ratingAnomaly l then add s (fin 0.15) else s in
  let s := if zeroReviews l then add s (fin 0.1) else s in
  let s := if genericSeller l then add s (fin 0.1) else s in
  let s := if Nat.eqb (imageCount l) 0 then add s (fin 0.1) else s in
  s.

(** The amounts the statements [suspiciousness += ...] add, one per signal,
    in source order; a conditional whose test fails adds nothing. *)
Inductive Signal : Type :=
| SuspiciousWords
| PriceDeviation
| PerfectRating
| ZeroReviews
| GenericSeller
| NoImages.

Definition contributions (l : Locals) : list (Signal * num) :=
  [ (SuspiciousWords, mul (of_nat (wordMatches l)) (fin 0.15));
    (PriceDeviation, min (mul (priceDeviation l) (fin 0.2)) (fin 0.2)) ]
  ++ (if ratingAnomaly l then [(PerfectRating, fin 0.15)] else [])
  ++ (if zeroReviews l then [(ZeroReviews, fin 0.1)] else [])
  ++ (if genericSeller l then [(GenericSeller, fin 0.1)] else [])
  ++ (if Nat.eqb (imageCount l) 0 then [(NoImages, fin 0.1)] else []).

(** The sum [suspiciousness] accumulates, as a left fold from 0. *)
Definition total (cs : list (Signal * num)) : num :=
  fold_left (fun s c => add s (snd c)) cs (Fin 0).

Definition labelOf (score : num) : Label :=
  if Num.lt score (fin 0.4) then safe
  else if Num.lt score (fin 0.7) then suspicious
  else high_risk.

(** The five entries of the returned array literal, before the filter. *)
Definition entries (l : Locals) : list FeatureContribution :=
  [ mkFeature "price_deviation_from_median"
      (min (mul (priceDeviation l) (fin 0.2)) (Fin 1));
    mkFeature "suspicious_words_in_title"
      (min (mul (of_nat (wordMatches l)) (fin 0.15)) (Fin 1));
    mkFeature "perfect_rating_low_reviews"
      (if ratingAnomaly l then fin 0.15 else Fin 0);
    mkFeature "no_images"
      (if Nat.eqb (imageCount l) 0 then fin 0.1 else Fin 0);
    mkFeature "generic_seller_name"
      (if genericSeller l then fin 0.1 else Fin 0) ].

(** [now] is the string [new Date().toISOString()] returns at the call. *)
Definition generateMockAnalysis (data : Data) (now : string)
  : result AnalysisResult :=
  l <- locals data ;;
  let score := min (suspiciousness l) (Fin 1) in
  Ok {| score := score;
        label := labelOf score;
        explanation :=
          filter (fun e => Num.gt (contribution e) (Fin 0)) (entries l);
        model_version := "v0.1-mock";
        timestamp := now |}.

(** The feature names of the array literal, in the order they are
    written. *)
Definition declarationOrder : list string :=
  ["price_deviation_from_median"; "suspicious_words_in_title";
   "perfect_rating_low_reviews"; "no_images"; "generic_seller_name"].

(** [s] can be obtained from [t] by deleting elements. *)
Fixpoint subseq (s t : list string) : bool :=
  match s, t with
  | [], _ => true
  | _ :: _, [] => false
  | x :: s', y :: t' =>
      if String.eqb x y then subseq s' t' else subseq s t'
  end.

(** Each value is at least the next one. *)
Fixpoint descending (cs : list num) : bool :=
  match cs with
  | x :: ((y :: _) as rest) => Num.ge x y && descending rest
  | _ => true
  end.

Definition withImages (data : Data) (v : jsval) : Data :=
  mkData (title data) (price data) (seller data) (rating data)
         (review_count data) (category data) v.

(* ===================================================================== *)
(** ** Engine selection: [callMLService] *)
(* ===================================================================== *)

(** How the single [fetch] of the scoring backend ends. *)
Inductive FetchOutcome : Type :=
| Aborted                       (* the 5 second timer aborted the request *)
| TransportFailure              (* [fetch] rejected for any other reason *)
| Responded (status : nat) (json : result jsval).
                                (* a response, and what [response.json()]
                                   gives when it is read *)

(** [response.ok] *)
Definition ok (status : nat) : bool :=
  Nat.leb 200 status && Nat.leb status 299.

(** The value [callMLService] resolves to: the backend's reply as it was
    parsed, or the heuristic engine's result. *)
Inductive Analysis : Type :=
| FromService (reply : jsval)
| FromHeuristic (r : AnalysisResult).

Definition callMLService (data : Data) (backend : FetchOutcome)
  (now : string) : result Analysis :=
  match backend with
  | Responded status json =>
      if negb (ok status) then
        r <- generateMockAnalysis data now ;; Ok (FromHeuristic r)
      else
        match json with
        | Ok reply => Ok (FromService reply)
        | Throw _ => r <- generateMockAnalysis data now ;; Ok (FromHeuristic r)
        end
  | Aborted | TransportFailure =>
      r <- generateMockAnalysis data now ;; Ok (FromHeuristic r)
  end.

(* ===================================================================== *)
(** ** The route handler: [POST] *)
(* ===================================================================== *)

Inductive Payload : Type :=
| ErrorBody (error : string)
| AnalysisBody (a : Analysis).

Record Response : Type := mkResponse {
  payload : Payload;
  status : nat
}.

(** [body.title], ... : reading a property of [null] or [undefined] throws;
    any other value that is not an object has none of the properties. *)
Definition props (body : jsval) : result Data :=
  match body with
  | JUndefined | JNull => Throw TypeError
  | JObj ps =>
      let get k := match getOwn k ps with Some v => v | None => JUndefined end in
      Ok (mkData (get "title") (get "price") (get "seller") (get "rating")
                 (get "review_count") (get "category") (get "images"))
  | _ =>
      Ok (mkData JUndefined JUndefined JUndefined JUndefined JUndefined
                 JUndefined JUndefined)
  end.

(** The condition of the validation [if]. *)
Definition invalid (body : Data) : bool :=
  negb (ToBoolean (title body))
  || negb (is_number (price body))
  || negb (ToBoolean (seller body))
  || is_undefined (rating body)
  || is_undefined (review_count body).

(** [requestJson] is what [request.json()] gives. *)
Definition POST (requestJson : result jsval) (backend : FetchOutcome)
  (now : string) : Response :=
  match
    (parsed <- requestJson ;;
     body <- props parsed ;;
     if invalid body then
       Ok (mkResponse (ErrorBody "Missing or invalid required fields") 400)
     else
       result <- callMLService body backend now ;;
       Ok (mkResponse (AnalysisBody result) 200))
  with
  | Ok response => response
  | Throw _ => mkResponse (ErrorBody "Internal server error") 500
  end.


(* ===================================================================== *)
(** ** The listing type of the specification *)
(* ===================================================================== *)

(** A value with no conversion method to run: everything but arrays and
    objects. *)
Definition primitive (v : jsval) : bool :=
  match v with JArr _ | JObj _ => false | _ => true end.

Definition is_string (v : jsval) : bool :=
  match v with JStr _ => true | _ => false end.

(** A number [JSON.parse] can produce: never NaN. *)
Definition is_json_number (v : jsval) : bool :=
  match v with
  | JNum NaN => false
  | JNum _ => true
  | _ => false
  end.

(** The required fields carry the types the specification's data model
    gives them: [title] and [seller] strings, [price], [rating] and
    [review_count] numbers. *)
Definition requiredWellTyped (d : Data) : bool :=
  is_string (title d) && is_json_number (price d) && is_string (seller d)
  && is_json_number (rating d) && is_json_number (review_count d).

(* ===================================================================== *)
(** ** Sample inputs *)
(* ===================================================================== *)

(** A runtime for the examples.  None of the sample listings below makes
    the engine convert between strings and numbers. *)
Definition sampleStringToNumber (_ : string) : num := NaN.
Definition sampleNumberToString (_ : num) : string := "NaN".

Definition sampleNow : string := "2025-01-01T00:00:00.000Z".

(** [{title:"Generic Widget", price:50000, seller:"Shop", rating:4.0,
      review_count:100, category:"clothing", images:["a","b"]}] *)
Definition widgetListing : Data :=
  mkData (JStr "Generic Widget") (JNum (Fin 50000)) (JStr "Shop")
         (JNum (Fin 4)) (JNum (Fin 100)) (JStr "clothing")
         (JArr [JStr "a"; JStr "b"]).

(** The empty listing of a category [c]. *)
Definition emptyListing (c : jsval) : Data :=
  mkData (JStr "") (JNum (Fin 0)) (JStr "") (JNum (Fin 0)) (JNum (Fin 0))
         c (JArr []).

(** [{title:"free phone", price:1000, seller:"Acme", rating:4.5,
      review_count:120, category:"electronics", images:["a.jpg"]}] *)
Definition freePhoneListing : Data :=
  mkData (JStr "free phone") (JNum (Fin 1000)) (JStr "Acme")
         (JNum (Fin 4.5)) (JNum (Fin 120)) (JStr "electronics")
         (JArr [JStr "a.jpg"]).


(** [{title:"Desk lamp", price:1100, seller:"Acme", rating:5,
      review_count:0, category:"electronics", images:["a.jpg"]}] *)
Definition newLampListing : Data :=
  mkData (JStr "Desk lamp") (JNum (Fin 1100)) (JStr "Acme")
         (JNum (Fin 5)) (JNum (Fin 0)) (JStr "electronics")
         (JArr [JStr "a.jpg"]).

(** [{title:"Desk lamp", price:25, seller:"Acme", rating:4.2,
      review_count:12, category:"constructor", images:["a.jpg"]}] *)
Definition constructorListing : Data :=
  mkData (JStr "Desk lamp") (JNum (Fin 25)) (JStr "Acme")
         (JNum (Fin 4.2)) (JNum (Fin 12)) (JStr "constructor")
         (JArr [JStr "a.jpg"]).

Definition constructorBody : jsval :=
  JObj [("title", JStr "Desk lamp"); ("price", JNum (Fin 25));
        ("seller", JStr "Acme"); ("rating", JNum (Fin 4.2));
        ("review_count", JNum (Fin 12)); ("category", JStr "constructor");
        ("images", JArr [JStr "a.jpg"])].

(** [{title:123, price:25, seller:"Acme", rating:4.2, review_count:12}]:
    the title is a number. *)
Definition numericTitleBody : jsval :=
  JObj [("title", JNum (Fin 123)); ("price", JNum (Fin 25));
        ("seller", JStr "Acme"); ("rating", JNum (Fin 4.2));
        ("review_count", JNum (Fin 12))].


Definition iphoneListing : Data :=
  mkData (JStr "iPhone 15 Pro Max") (JNum (Fin 1199.99)) (JStr "TechMart")
         (JNum (Fin 4.8)) (JNum (Fin 5234)) (JStr "electronics")
         (JArr [JStr "https://...jpg"]).




(** [{title:"Desk lamp", price:25, seller:"Acme", rating:4.2,
      review_count:12, category:"books", images:"a.jpg"}]: [images] is a
    string. *)
Definition lampBody : jsval :=
  JObj [("title", JStr "Desk lamp"); ("price", JNum (Fin 25));
        ("seller", JStr "Acme"); ("rating", JNum (Fin 4.2));
        ("review_count", JNum (Fin 12)); ("category", JStr "books");
        ("images", JStr "a.jpg")].

(* ===================================================================== *)
(** ** Further notions for the route *)
(* ===================================================================== *)

(** The severity order of the verdicts: safe < suspicious < high_risk. *)
Definition rank (l : Label) : nat :=
  match l with
  | safe => 0
  | suspicious => 1
  | high_risk => 2
  end.

Definition withTitle (data : Data) (v : jsval) : Data :=
  mkData v (price data) (seller data) (rating data)
         (review_count data) (category data) (images data).


Definition withPrice (data : Data) (v : jsval) : Data :=
  mkData (title data) v (seller data) (rating data)
         (review_count data) (category data) (images data).

(** The backend delivered a reply the route returns: a status in 200-299
    and a body that parses. *)
Definition delivered (backend : FetchOutcome) : bool :=
  match backend with
  | Responded status (Ok _) => ok status
  | _ => false
  end.


Definition arrayTitleBody : jsval :=
  JObj [("title", JArr [JStr "free"]); ("price", JNum (Fin 25));
        ("seller", JStr "Acme"); ("rating", JNum (Fin 4.2));
        ("review_count", JNum (Fin 12))].

(** A title with five vocabulary words. *)
Definition loudListing : Data :=
  withTitle iphoneListing
    (JStr "FREE amazing limited urgent exclusive offer").

(* ===================================================================== *)
(** ** The wire between the page and the route *)
(* ===================================================================== *)

Definition finite (n : num) : bool :=
  match n with Fin _ => true | _ => false end.

(** What the receiver parses after the sender's [JSON.stringify]: a
    number that is not finite becomes [null], an [undefined] array element
    becomes [null], and a property whose value is [undefined] is left
    out. *)
Fixpoint wire (v : jsval) : jsval :=
  match v with
  | JNum n => if finite n then JNum n else JNull
  | JArr elems =>
      JArr (map (fun x => match x with
                          | JUndefined => JNull
                          | _ => wire x
                          end) elems)
  | JObj props =>
      JObj ((fix members (ps : list (string * jsval)) :=
               match ps with
               | [] => []
               | (k, x) :: rest =>
                   match x with
                   | JUndefined => members rest
                   | _ => (k, wire x) :: members rest
                   end
               end) props)
  | _ => v
  end.

Definition labelString (l : Label) : string :=
  match l with
  | safe => "safe"
  | suspicious => "suspicious"
  | high_risk => "high_risk"
  end.

(** The values the route hands to [NextResponse.json]. *)
Definition resultValue (r : AnalysisResult) : jsval :=
  JObj [("score", JNum (score r));
        ("label", JStr (labelString (label r)));
        ("explanation",
         JArr (map (fun e => JObj [("feature", JStr (feature e));
                                   ("contribution", JNum (contribution e))])
                   (explanation r)));
        ("model_version", JStr (model_version r));
        ("timestamp", JStr (timestamp r))].

Definition payloadValue (p : Payload) : jsval :=
  match p with
  | ErrorBody e => JObj [("error", JStr e)]
  | AnalysisBody (FromService reply) => reply
  | AnalysisBody (FromHeuristic r) => resultValue r
  end.

(** [v.k] on a parsed value that is not [null]. *)
Definition getField (k : string) (v : jsval) : jsval :=
  match v with
  | JObj ps => match getOwn k ps with Some x => x | None => JUndefined end
  | _ => JUndefined
  end.

(* ===================================================================== *)
(** ** The explanation panel: [ExplanationPanel] *)
(* ===================================================================== *)

(** [s.split(sep)] for a separator of one character. *)
Fixpoint split (sep : ascii) (s : string) : list string :=
  match s with
  | EmptyString => [EmptyString]
  | String c s' =>
      if Ascii.eqb c sep then EmptyString :: split sep s'
      else match split sep s' with
           | [] => [String c EmptyString]
           | w :: ws => String c w :: ws
           end
  end.

(** [c.toUpperCase()] on the ASCII letters; other characters are kept. *)
Definition upper_ascii (c : ascii) : ascii :=
  let n := N_of_ascii c in
  if ((97 <=? n) && (n <=? 122))%N then ascii_of_N (n - 32) else c.

(** [word.charAt(0).toUpperCase() + word.slice(1)] *)
Definition capitalize (word : string) : string :=
  match word with
  | EmptyString => EmptyString
  | String c rest => String (upper_ascii c) rest
  end.

Definition formatFeatureName (feature : string) : string :=
  String.concat " " (map capitalize (split "_" feature)).

(** [explanations.reduce((sum, e) => sum + e.contribution, 0) || 1] *)
Definition totalContribution (explanations : list FeatureContribution)
  : num :=
  let sum :=
    fold_left (fun sum e => add sum (contribution e)) explanations (Fin 0) in
  if ToBoolean (JNum sum) then sum else Fin 1.

(** The bar of an entry, in percent of its track:
    [(exp.contribution / (totalContribution / explanations.length)) * 100] *)
Definition barWidth (explanations : list FeatureContribution)
  (exp : FeatureContribution) : num :=
  mul (div (contribution exp)
           (div (totalContribution explanations)
                (of_nat (List.length explanations))))
      (Fin 100).

(** The number under "Impact", before [toFixed(1)]:
    [exp.contribution * 100] *)
Definition impact (exp : FeatureContribution) : num :=
  mul (contribution exp) (Fin 100).

(** The sum of a list of numbers. *)
Definition sumOf (xs : list num) : num := fold_left add xs (Fin 0).

(* ===================================================================== *)
(** ** The live monitor: the listing buffer of [MonitorPage] *)
(* ===================================================================== *)

(** [[newListing, ...prev].slice(0, 20)] *)
Definition pushListing {A : Type} (newListing : A) (prev : list A) : list A :=
  firstn 20 (newListing :: prev).

(** The buffer after the interval has fired once for every listing of
    [news], oldest first, starting from the initial state [[]]. *)
Definition monitor {A : Type} (news : list A) : list A :=
  fold_left (fun prev newListing => pushListing newListing prev) news [].

(* ===================================================================== *)
(** ** The score card: [ScoreCard] *)
(* ===================================================================== *)

(** [score * 100], on the [score] the page read from the response. *)
Definition percentage (score : jsval) : result num :=
  n <- ToNumber score ;; Ok (mul n (Fin 100)).

(** The stroke of the progress circle. *)
Definition strokeColor (label : jsval) : string :=
  match label with
  | JStr "safe" => "#16a34a"
  | JStr "suspicious" => "#d97706"
  | _ => "#dc2626"
  end.

(* ===================================================================== *)
(** ** The analyze page: [handleSubmit] *)
(* ===================================================================== *)

Section Page.

(** The browser's [Number.parseFloat] and [Number.parseInt]. *)
Variable parseFloat : string -> num.
Variable parseInt : string -> num.

(** The state [formData]: every field is the text of its input. *)
Record FormData : Type := mkFormData {
  form_title : string;
  form_description : string;
  form_price : string;
  form_seller : string;
  form_rating : string;
  form_review_count : string;
  form_category : string;
  form_country : string;
  form_images : string
}.

(** [formData.images ? formData.images.split("\n").filter(Boolean) : []] *)
Definition imageLines (text : string) : list string :=
  if negb (String.eqb text "")
  then filter (fun line => negb (String.eqb line ""))
              (split "010"%char text)
  else [].

(** The object [payload] given to [JSON.stringify]. *)
Definition payloadOf (formData : FormData) : jsval :=
  JObj [("title", JStr (form_title formData));
        ("description", JStr (form_description formData));
        ("price", JNum (parseFloat (form_price formData)));
        ("seller", JStr (form_seller formData));
        ("rating", JNum (parseFloat (form_rating formData)));
        ("review_count", JNum (parseInt (form_review_count formData)));
        ("category", JStr (form_category formData));
        ("country", JStr (form_country formData));
        ("images", JArr (map JStr (imageLines (form_images formData))))].

(** How [fetch("/api/analyze", ...)] ends for the page: it rejects with a
    message, or a response arrives with its status and with what
    [response.json()] gives (a value, or a rejection with a message). *)
Inductive Exchange : Type :=
| Rejected (message : string)
| Replied (status : nat) (json : jsval + string).

(** The three pieces of state [handleSubmit] sets. *)
Record PageState : Type := mkPageState {
  page_result : option jsval;
  page_error : option string;
  page_loading : bool
}.

(** [(err as Error).message || "An error occurred"] *)
Definition errorText (message : string) : string :=
  if negb (String.eqb message "") then message else "An error occurred".

(** The state once [handleSubmit] has run to its [finally]; [send] is the
    exchange with the route for a given request value. *)
Definition handleSubmit (send : jsval -> Exchange) (formData : FormData)
  : PageState :=
  match send (payloadOf formData) with
  | Rejected message => mkPageState None (Some (errorText message)) false
  | Replied status json =>
      if negb (ok status) then
        mkPageState None (Some (errorText "Analysis failed")) false
      else
        match json with
        | inl data => mkPageState (Some data) None false
        | inr message => mkPageState None (Some (errorText message)) false
        end
  end.

(** The route behind [/api/analyze] as the page reaches it: the request
    value and the answer both cross the wire. *)
Definition analyzeRoute (backend : FetchOutcome) (now : string)
  (request : jsval) : Exchange :=
  let response := POST (Ok (wire request)) backend now in
  Replied (status response) (inl (wire (payloadValue (payload response)))).

(** The [Data] the route reads from the request the page sends for
    [formData]: a number that is not finite has become [null]. *)
Definition listingOf (formData : FormData) : Data :=
  mkData (JStr (form_title formData))
         (wire (JNum (parseFloat (form_price formData))))
         (JStr (form_seller formData))
         (wire (JNum (parseFloat (form_rating formData))))
         (wire (JNum (parseInt (form_review_count formData))))
         (JStr (form_category formData))
         (JArr (map JStr (imageLines (form_images formData)))).

End Page.

(** A parse function for the examples: it reads the four numerals the
    sample forms use and gives NaN for any other text. *)
Definition sampleParse (text : string) : num :=
  if String.eqb text "25" then Fin 25
  else if String.eqb text "4.2" then Fin 4.2
  else if String.eqb text "5" then Fin 5
  else if String.eqb text "12" then Fin 12
  else NaN.

(** The review count left blank, the rating 5. *)
Definition blankReviewsForm : FormData :=
  mkFormData "Desk lamp" "" "25" "Acme" "5" "" "books" "US" "a.jpg".

(** The price left blank. *)
Definition blankPriceForm : FormData :=
  mkFormData "Desk lamp" "" "" "Acme" "4.2" "12" "books" "US" "".

(** Every character of [s] is an ASCII character. *)
Definition isAscii (s : string) : bool :=
  forallb (fun c => (N_of_ascii c <? 128)%N) (list_ascii_of_string s).

(** The value of a finite number; 0 for the others. *)
Definition valueOf (x : num) : Q :=
  match x with Fin q => q | _ => 0 end.

(* ===================================================================== *)
(** ** Facts about numbers *)
(* ===================================================================== *)

Lemma fin_eq (q : Q) : fin q = Fin (Qred q).
Proof. reflexivity. Qed.

Lemma lt_fin (a b : Q) : Num.lt (Fin a) (Fin b) = true <-> a < b.
Proof.
  unfold Num.lt; simpl. rewrite Qlt_alt.
  destruct (a ?= b); split; intro; congruence.
Qed.

Lemma ge_fin (a b : Q) : Num.ge (Fin a) (Fin b) = true <-> b <= a.
Proof.
  unfold Num.ge; simpl. change (b <= a) with (a >= b). rewrite Qge_alt.
  destruct (a ?= b); split; intro; congruence.
Qed.

Lemma le_fin (a b : Q) : Num.le (Fin a) (Fin b) = true <-> a <= b.
Proof. unfold Num.le. apply ge_fin. Qed.

Lemma gt_fin (a b : Q) : Num.gt (Fin a) (Fin b) = true <-> b < a.
Proof. unfold Num.gt. apply lt_fin. Qed.

(** [x < y] and [x >= y] exclude each other. *)
Lemma lt_ge_excl (x y : num) :
  Num.lt x y = true -> Num.ge x y = true -> False.
Proof.
  unfold Num.lt, Num.ge. destruct (cmp x y) as [[]|]; discriminate.
Qed.

(** [y <= x] is [x >= y], so it also excludes [x < y]. *)
Lemma lt_le_excl (x y : num) :
  Num.lt x y = true -> Num.le y x = true -> False.
Proof. unfold Num.le. apply lt_ge_excl. Qed.

(* ===================================================================== *)
(** ** Verdict thresholds *)
(* ===================================================================== *)

(** What a successful run returns, in terms of the locals. *)
Lemma generateMockAnalysis_ok (data : Data) (now : string)
  (r : AnalysisResult) :
  generateMockAnalysis data now = Ok r ->
  exists l, locals data = Ok l /\
    score r = min (suspiciousness l) (Fin 1) /\
    label r = labelOf (score r) /\
    explanation r =
      filter (fun e => Num.gt (contribution e) (Fin 0)) (entries l) /\
    model_version r = "v0.1-mock" /\
    timestamp r = now.
Proof.
  unfold generateMockAnalysis. destruct (locals data) as [l|e]; simpl.
  - intros H. injection H as <-. exists l. simpl. repeat split.
  - discriminate.
Qed.

Lemma labelOf_safe (s : num) :
  Num.lt s (fin 0.4) = true -> labelOf s = safe.
Proof. unfold labelOf. now intros ->. Qed.

Lemma lt_04_07 (s : num) :
  Num.lt s (fin 0.4) = true -> Num.lt s (fin 0.7) = true.
Proof.
  destruct s; simpl; try discriminate; try reflexivity.
  rewrite !fin_eq, !lt_fin, !Qred_correct. lra.
Qed.

Lemma labelOf_suspicious (s : num) :
  Num.le (fin 0.4) s = true -> Num.lt s (fin 0.7) = true ->
  labelOf s = suspicious.
Proof.
  intros Hle Hlt. unfold labelOf. rewrite Hlt.
  destruct (Num.lt s (fin 0.4)) eqn:E; [|reflexivity].
  exfalso. exact (lt_le_excl _ _ E Hle).
Qed.

Lemma labelOf_high_risk (s : num) :
  Num.ge s (fin 0.7) = true -> labelOf s = high_risk.
Proof.
  intros Hge. unfold labelOf.
  destruct (Num.lt s (fin 0.7)) eqn:E7.
  - exfalso. exact (lt_ge_excl _ _ E7 Hge).
  - destruct (Num.lt s (fin 0.4)) eqn:E4; [|reflexivity].
    apply lt_04_07 in E4. congruence.
Qed.

(** C1.  Whenever the heuristic engine returns, its label is a function of
    its score alone, the score being the running total clamped at 1:
    [safe] when score < 0.4, [suspicious] when 0.4 <= score < 0.7 and
    [high_risk] when score >= 0.7. *)
Theorem label_by_thresholds (data : Data) (now : string)
  (r : AnalysisResult) :
  generateMockAnalysis data now = Ok r ->
  (exists l, locals data = Ok l /\
             score r = min (suspiciousness l) (Fin 1)) /\
  label r = labelOf (score r) /\
  (Num.lt (score r) (fin 0.4) = true -> label r = safe) /\
  (Num.le (fin 0.4) (score r) = true ->
   Num.lt (score r) (fin 0.7) = true -> label r = suspicious) /\
  (Num.ge (score r) (fin 0.7) = true -> label r = high_risk).
Proof.
  intros H.
  destruct (generateMockAnalysis_ok _ _ _ H) as (l & Hl & Hs & Hlab & _).
  split; [exists l; split; assumption|].
  split; [assumption|].
  rewrite Hlab. repeat split.
  - apply labelOf_safe.
  - apply labelOf_suspicious.
  - apply labelOf_high_risk.
Qed.

(* ===================================================================== *)
(** ** The amounts added to the score *)
(* ===================================================================== *)

(** The running total of the source is the left fold of the amounts. *)
Lemma suspiciousness_total (l : Locals) :
  suspiciousness l = total (contributions l).
Proof.
  unfold suspiciousness, total, contributions.
  destruct (ratingAnomaly l), (zeroReviews l), (genericSeller l),
    (Nat.eqb (imageCount l) 0); reflexivity.
Qed.

Lemma within_le (lo hi : Q) (x : num) :
  within lo hi x ->
  Num.le (Fin lo) x = true /\ Num.le x (Fin hi) = true.
Proof.
  intros (q & -> & H1 & H2). now rewrite !le_fin.
Qed.

Lemma within_weaken (lo hi lo' hi' : Q) (x : num) :
  within lo hi x -> lo' <= lo -> hi <= hi' -> within lo' hi' x.
Proof.
  intros (q & -> & H1 & H2) Hlo Hhi. exists q. split; [reflexivity|lra].
Qed.

Lemma within_fin (lo hi q : Q) : lo <= q <= hi -> within lo hi (fin q).
Proof.
  intros H. exists (Qred q). split; [reflexivity|].
  rewrite Qred_correct. exact H.
Qed.

(** [Math.min] of two finite numbers is the smaller one. *)
Lemma min_fin (a b : Q) :
  (min (Fin a) (Fin b) = Fin a /\ a <= b) \/
  (min (Fin a) (Fin b) = Fin b /\ b < a).
Proof.
  unfold min; simpl.
  destruct (a ?= b) eqn:E.
  - left. split; [reflexivity|]. apply Qeq_alt in E. lra.
  - left. split; [reflexivity|]. apply Qlt_alt in E. lra.
  - right. split; [reflexivity|]. apply Qgt_alt in E. lra.
Qed.

Lemma within_min (lo a b : Q) :
  lo <= a -> lo <= b -> within lo b (min (Fin a) (Fin b)).
Proof.
  intros Ha Hb.
  destruct (min_fin a b) as [[-> H]|[-> H]].
  - exists a. split; [reflexivity|lra].
  - exists b. split; [reflexivity|lra].
Qed.



(** What a successful run of the body computed. *)
Lemma locals_inv (data : Data) (l : Locals) :
  locals data = Ok l ->
  exists t key p s,
    lowered (title data) = Ok t /\
    ToPropertyKey (category data) = Ok key /\
    ToNumber (price data) = Ok p /\
    lowered (seller data) = Ok s /\
    wordMatches l =
      List.length (filter (fun w => includes t w) suspiciousWords) /\
    medianPrice l = median (rangeFor key) /\
    priceDeviation l =
      div (abs (sub p (median (rangeFor key)))) (median (rangeFor key)) /\
    zeroReviews l = strict_eq_num (review_count data) (Fin 0) /\
    genericSeller l = existsb (fun n => includes s n) genericNames /\
    imageCount l =
      (if ToBoolean (images data) && isArray (images data)
       then arrayLength (images data) else 0%nat).
Proof.
  unfold locals.
  destruct (lowered (title data)) as [t|]; cbn [bind]; [|discriminate].
  destruct (ToPropertyKey (category data)) as [key|]; cbn [bind]; [|discriminate].
  destruct (ToNumber (price data)) as [p|]; cbn [bind]; [|discriminate].
  destruct (js_ge (rating data) (fin 4.9)) as [high|]; cbn [bind];
    [|discriminate].
  destruct (match high with
            | true => js_lt (review_count data) (Fin 10)
            | false => Ok false
            end) as [anomaly|]; cbn [bind]; [|discriminate].
  destruct (lowered (seller data)) as [s|]; cbn [bind]; [|discriminate].
  intros H. injection H as <-. exists t, key, p, s. cbn [wordMatches medianPrice priceDeviation zeroReviews genericSeller imageCount].
  repeat split.
Qed.


(** A key that names a member of [Object.prototype] selects a value with
    no elements 0 and 1: the median is NaN. *)
Lemma median_inherited (key : string) :
  categoryRanges_get key = Some Inherited -> median (rangeFor key) = NaN.
Proof. unfold rangeFor. now intros ->. Qed.

(** Every own entry of the table, and the default range, has a positive
    finite median. *)
Lemma median_positive (key : string) :
  categoryRanges_get key <> Some Inherited ->
  exists m, median (rangeFor key) = Fin m /\ 0 < m.
Proof.
  unfold rangeFor, categoryRanges_get, categoryRanges. simpl ownRange.
  repeat match goal with
         | |- context [if String.eqb key ?k then _ else _] =>
             destruct (String.eqb key k);
             [intros _; eexists; split; [reflexivity|reflexivity]|]
         end.
  destruct (existsb (String.eqb key) objectPrototypeNames).
  - intros H. now contradiction H.
  - intros _. eexists; split; [reflexivity|reflexivity].
Qed.

(** Against a positive finite median, the deviation of a price that is
    not NaN is a non-negative number or positive infinity. *)
Lemma deviation_nonneg (p : num) (m : Q) :
  p <> NaN -> 0 < m ->
  div (abs (sub p (Fin m))) (Fin m) = PInf \/
  exists d, div (abs (sub p (Fin m))) (Fin m) = Fin d /\ 0 <= d.
Proof.
  intros Hp Hm.
  assert (Hle : Qle_bool 0 m = true) by (apply Qle_bool_iff; lra).
  destruct p as [| | |q]; [congruence| | |]; simpl.
  - left. now rewrite Hle.
  - left. now rewrite Hle.
  - right. destruct (m ?= 0) eqn:E.
    + apply Qeq_alt in E. lra.
    + apply Qlt_alt in E. lra.
    + eexists. split; [reflexivity|].
      rewrite Qred_correct.
      apply Qle_shift_div_l; [exact Hm|].
      rewrite Qred_correct. ring_simplify. apply Qabs_nonneg.
Qed.

(** The amount the price signal adds is capped at 0.2. *)
Lemma price_amount (dev : num) :
  dev = PInf \/ (exists d, dev = Fin d /\ 0 <= d) ->
  within 0 0.2 (min (mul dev (fin 0.2)) (fin 0.2)).
Proof.
  intros [->|(d & -> & Hd)].
  - exists (Qred 0.2). split; [reflexivity|].
    rewrite Qred_correct. lra.
  - simpl. rewrite !fin_eq.
    eapply within_weaken.
    + apply within_min with (lo := 0).
      * rewrite Qred_correct.
        assert (Hq : Qred 0.2 == 0.2) by apply Qred_correct.
        rewrite Hq. nra.
      * rewrite Qred_correct. lra.
    + lra.
    + rewrite Qred_correct. lra.
Qed.

(** The price deviation of a listing whose price is a number other than
    NaN and whose category does not select an inherited member. *)
Lemma priceDeviation_nonneg (data : Data) (l : Locals) (key : string) :
  locals data = Ok l ->
  ToPropertyKey (category data) = Ok key ->
  categoryRanges_get key <> Some Inherited ->
  is_json_number (price data) = true ->
  priceDeviation l = PInf \/ exists d, priceDeviation l = Fin d /\ 0 <= d.
Proof.
  intros Hl Hkey Hget Hprice.
  destruct (locals_inv _ _ Hl)
    as (t & key' & p & s & _ & Hkey' & Hp & _ & _ & _ & Hdev & _).
  rewrite Hkey in Hkey'. injection Hkey' as <-.
  destruct (median_positive key Hget) as (m & Hm & Hpos).
  rewrite Hdev, Hm. apply deviation_nonneg; [|exact Hpos].
  destruct (price data) as [| | |n| | |]; try discriminate.
  simpl in Hp. injection Hp as <-.
  destruct n; [discriminate| | |]; discriminate.
Qed.






(* ===================================================================== *)
(** ** Score range *)
(* ===================================================================== *)

(** Once the median is NaN, so are the deviation, the running total and
    the score. *)
Lemma score_nan_inherited (data : Data) (now : string) (r : AnalysisResult)
  (key : string) :
  generateMockAnalysis data now = Ok r ->
  ToPropertyKey (category data) = Ok key ->
  categoryRanges_get key = Some Inherited ->
  score r = NaN /\ label r = high_risk.
Proof.
  intros H Hkey Hget.
  destruct (generateMockAnalysis_ok _ _ _ H) as (l & Hl & Hs & Hlab & _).
  destruct (locals_inv _ _ Hl)
    as (t & key' & p & s & _ & Hkey' & _ & _ & _ & _ & Hdev & _).
  rewrite Hkey in Hkey'. injection Hkey' as <-.
  rewrite (median_inherited key Hget) in Hdev.
  assert (Hnan : priceDeviation l = NaN).
  { rewrite Hdev. destruct p; reflexivity. }
  assert (Hsc : score r = NaN).
  { rewrite Hs. unfold suspiciousness. rewrite Hnan.
    destruct (ratingAnomaly l), (zeroReviews l), (genericSeller l),
      (Nat.eqb (imageCount l) 0); reflexivity. }
  split; [exact Hsc|]. rewrite Hlab, Hsc. reflexivity.
Qed.

(** C2 (failing input).  The listing
    [{title:"Desk lamp", price:25, seller:"Acme", rating:4.2,
      review_count:12, category:"constructor", images:["a.jpg"]}]
    passes validation; with the backend unreachable the route answers 200
    with the heuristic result, whose score is NaN: it is neither at least 0
    nor at most 1. *)
Theorem score_nan_for_constructor_category (now : string) :
  props constructorBody = Ok constructorListing /\
  invalid constructorListing = false /\
  generateMockAnalysis constructorListing now =
    Ok (mkResult NaN high_risk [] "v0.1-mock" now) /\
  POST (Ok constructorBody) TransportFailure now =
    mkResponse
      (AnalysisBody (FromHeuristic (mkResult NaN high_risk [] "v0.1-mock" now)))
      200 /\
  Num.le (Fin 0) NaN = false /\ Num.le NaN (Fin 1) = false.
Proof. repeat split. Qed.

(* ===================================================================== *)
(** ** Order and content of the explanation *)
(* ===================================================================== *)

Lemma entries_features (l : Locals) :
  map feature (entries l) = declarationOrder.
Proof. reflexivity. Qed.

Lemma explanation_subseq (l : Locals) :
  subseq
    (map feature
       (filter (fun e => Num.gt (contribution e) (Fin 0)) (entries l)))
    declarationOrder = true.
Proof.
  unfold entries. cbn [filter contribution].
  repeat match goal with
         | |- context [if Num.gt ?c (Fin 0) then _ else _] =>
             destruct (Num.gt c (Fin 0))
         end;
    reflexivity.
Qed.

(** C3 (amended).  The explanation is the array literal's five entries in
    the order they are written (price deviation, suspicious words, perfect
    rating, no images, generic seller), restricted to those whose
    contribution is greater than 0; the contribution values play no part
    in the order, and the same listing always gives the same explanation. *)
Theorem explanation_in_declaration_order (data : Data) (now : string)
  (r : AnalysisResult) :
  generateMockAnalysis data now = Ok r ->
  (exists l, locals data = Ok l /\
     map feature (entries l) = declarationOrder /\
     explanation r =
       filter (fun e => Num.gt (contribution e) (Fin 0)) (entries l)) /\
  subseq (map feature (explanation r)) declarationOrder = true /\
  (forall now' r',
     generateMockAnalysis data now' = Ok r' ->
     explanation r' = explanation r).
Proof.
  intros H.
  destruct (generateMockAnalysis_ok _ _ _ H) as (l & Hl & _ & _ & He & _).
  split; [|split].
  - exists l. repeat split; assumption.
  - rewrite He. apply explanation_subseq.
  - intros now' r' H'.
    destruct (generateMockAnalysis_ok _ _ _ H')
      as (l' & Hl' & _ & _ & He' & _).
    rewrite Hl in Hl'. injection Hl' as <-. congruence.
Qed.

(** No entry of an explanation is named otherwise than the five entries of
    the array literal. *)
Lemma explanation_features (data : Data) (now : string) (r : AnalysisResult)
  (e : FeatureContribution) :
  generateMockAnalysis data now = Ok r ->
  In e (explanation r) -> In (feature e) declarationOrder.
Proof.
  intros H Hin.
  destruct (generateMockAnalysis_ok _ _ _ H) as (l & _ & _ & _ & He & _).
  rewrite He in Hin. apply filter_In in Hin. destruct Hin as [Hin _].
  rewrite <- (entries_features l). now apply in_map.
Qed.

(** A listing whose [review_count] is the number 0 has the zero-reviews
    amount 0.1 among the amounts summed into its score, whatever its
    rating, while every entry of its explanation bears one of the five
    declared names. *)
Lemma zero_reviews_added (data : Data) (now : string) (r : AnalysisResult) :
  generateMockAnalysis data now = Ok r ->
  strict_eq_num (review_count data) (Fin 0) = true ->
  exists l,
    locals data = Ok l /\
    In (ZeroReviews, fin 0.1) (contributions l) /\
    score r = min (total (contributions l)) (Fin 1) /\
    forall e, In e (explanation r) -> In (feature e) declarationOrder.
Proof.
  intros H Hz.
  destruct (generateMockAnalysis_ok _ _ _ H) as (l & Hl & Hs & _).
  destruct (locals_inv _ _ Hl)
    as (_ & _ & _ & _ & _ & _ & _ & _ & _ & _ & _ & Hzero & _).
  exists l. split; [exact Hl|]. split; [|split].
  - unfold contributions. rewrite Hzero, Hz.
    rewrite !in_app_iff. do 2 right. left. now left.
  - now rewrite Hs, suspiciousness_total.
  - intros e. exact (explanation_features data now r e H).
Qed.

(** C4 (failing input).  For
    [{title:"Desk lamp", price:1100, seller:"Acme", rating:5,
      review_count:0, category:"electronics", images:["a.jpg"]}]
    the perfect-rating amount 0.15 and the zero-reviews amount 0.1 are
    both added, giving the score 0.25, but the explanation has the single
    entry [perfect_rating_low_reviews]: no entry reports the zero-reviews
    amount. *)
Theorem zero_reviews_amount_unreported (now : string) :
  exists l,
    locals newLampListing = Ok l /\
    contributions l =
      [(SuspiciousWords, Fin 0); (PriceDeviation, Fin 0);
       (PerfectRating, fin 0.15); (ZeroReviews, fin 0.1)] /\
    generateMockAnalysis newLampListing now =
      Ok (mkResult (fin 0.25) safe
            [mkFeature "perfect_rating_low_reviews" (fin 0.15)]
            "v0.1-mock" now).
Proof. eexists. repeat split. Qed.

(** The price entry of the array literal and the amount the price signal
    adds are the same number as long as a fifth of the deviation does not
    exceed 0.2; beyond, the amount stays at 0.2 and the entry does not. *)
Lemma price_entry_vs_amount (d : Q) :
  (d * 0.2 <= 0.2 ->
   min (mul (Fin d) (fin 0.2)) (Fin 1) =
   min (mul (Fin d) (fin 0.2)) (fin 0.2)) /\
  (0.2 < d * 0.2 ->
   min (mul (Fin d) (fin 0.2)) (fin 0.2) = fin 0.2 /\
   Num.gt (min (mul (Fin d) (fin 0.2)) (Fin 1)) (fin 0.2) = true).
Proof.
  assert (Hq : Qred 0.2 == 0.2) by apply Qred_correct.
  cbn [mul]. rewrite !fin_eq.
  set (x := Qred (d * Qred 0.2)).
  assert (Hx : x == d * 0.2).
  { unfold x. rewrite Qred_correct, Hq. reflexivity. }
  split; intros H.
  - destruct (min_fin x 1) as [[-> _]|[_ H1]]; [|lra].
    destruct (min_fin x (Qred 0.2)) as [[-> _]|[_ H2]]; [reflexivity|lra].
  - split.
    + destruct (min_fin x (Qred 0.2)) as [[_ H2]|[-> _]]; [lra|reflexivity].
    + destruct (min_fin x 1) as [[-> _]|[-> _]]; apply gt_fin; lra.
Qed.

(** C6 (failing input).  For
    [{title:"Generic Widget", price:50000, seller:"Shop", rating:4.0,
      review_count:100, category:"clothing", images:["a","b"]}]
    the price signal adds 0.2 to the score, which is 0.3 in all, while the
    explanation's [price_deviation_from_median] entry carries 1. *)
Theorem price_entry_differs_from_amount (now : string) :
  exists l,
    locals widgetListing = Ok l /\
    contributions l =
      [(SuspiciousWords, Fin 0); (PriceDeviation, fin 0.2);
       (GenericSeller, fin 0.1)] /\
    generateMockAnalysis widgetListing now =
      Ok (mkResult (fin 0.3) safe
            [mkFeature "price_deviation_from_median" (Fin 1);
             mkFeature "generic_seller_name" (fin 0.1)]
            "v0.1-mock" now).
Proof. eexists. repeat split. Qed.


(* ===================================================================== *)
(** ** When the engine returns *)
(* ===================================================================== *)

Lemma primitive_ToString (v : jsval) :
  primitive v = true -> exists s, ToString v = Ok s.
Proof.
  destruct v as [| |[|]| | | |]; simpl; intros H;
    try discriminate; eexists; reflexivity.
Qed.

Lemma primitive_ToNumber (v : jsval) :
  primitive v = true -> exists n, ToNumber v = Ok n.
Proof.
  destruct v as [| |[|]| | | |]; simpl; intros H;
    try discriminate; eexists; reflexivity.
Qed.

Lemma lowered_string (v : jsval) :
  is_string v = true -> exists s, lowered v = Ok s.
Proof.
  destruct v; simpl; intros H; try discriminate.
  unfold lowered. destruct (ToBoolean (JStr s)); eexists; reflexivity.
Qed.

(** The engine returns whenever [title] and [seller] are strings and the
    other properties it converts are primitive values. *)
Lemma generateMockAnalysis_total (data : Data) (now : string) :
  is_string (title data) = true ->
  is_string (seller data) = true ->
  primitive (price data) = true ->
  primitive (rating data) = true ->
  primitive (review_count data) = true ->
  primitive (category data) = true ->
  exists r, generateMockAnalysis data now = Ok r.
Proof.
  intros Ht Hs Hp Hr Hc Hk.
  destruct (lowered_string _ Ht) as (t & Et).
  destruct (lowered_string _ Hs) as (s & Es).
  destruct (primitive_ToString _ Hk) as (key & Ek).
  destruct (primitive_ToNumber _ Hp) as (p & Ep).
  destruct (primitive_ToNumber _ Hr) as (ra & Era).
  destruct (primitive_ToNumber _ Hc) as (rc & Erc).
  unfold generateMockAnalysis, locals, ToPropertyKey, js_ge, js_lt.
  rewrite Et, Es, Ek, Ep, Era, Erc. cbn [bind].
  destruct (Num.ge ra (fin 4.9)); cbn [bind]; eexists; reflexivity.
Qed.

(* ===================================================================== *)
(** ** Images that are not an array *)
(* ===================================================================== *)

Lemma locals_withImages_non_array (data : Data) (v : jsval) :
  isArray v = false ->
  locals (withImages data v) = locals (withImages data (JArr [])).
Proof.
  intros Hv. unfold locals.
  cbn [withImages title category price rating review_count seller images].
  rewrite Hv, andb_false_r. reflexivity.
Qed.

Lemma locals_withImages_undefined (data : Data) :
  locals (withImages data JUndefined) = locals (withImages data (JArr [])).
Proof. now apply locals_withImages_non_array. Qed.

Lemma imageCount_non_array (data : Data) (v : jsval) (l : Locals) :
  isArray v = false ->
  locals (withImages data v) = Ok l -> imageCount l = 0%nat.
Proof.
  intros Hv Hl.
  destruct (locals_inv _ _ Hl) as (_ & _ & _ & _ & _ & _ & _ & _ & _ & _ & _ & _ & _ & Hi).
  rewrite Hi. cbn [withImages images]. now rewrite Hv, andb_false_r.
Qed.

(** C10.  When [images] is anything but an array, the engine computes
    exactly what it computes for an absent or empty [images]: the image
    count is 0, the no-images amount 0.1 is among the amounts summed into
    the score, and the explanation contains the [no_images] entry with
    contribution 0.1.  The engine does return such a result whenever the
    title and the seller are strings and the other properties it converts
    are primitive values. *)
Theorem non_array_images_as_no_images (data : Data) (v : jsval)
  (now : string) :
  isArray v = false ->
  generateMockAnalysis (withImages data v) now =
    generateMockAnalysis (withImages data JUndefined) now /\
  generateMockAnalysis (withImages data v) now =
    generateMockAnalysis (withImages data (JArr [])) now /\
  (forall r,
     generateMockAnalysis (withImages data v) now = Ok r ->
     (exists l,
        locals (withImages data v) = Ok l /\
        imageCount l = 0%nat /\
        In (NoImages, fin 0.1) (contributions l) /\
        score r = min (total (contributions l)) (Fin 1)) /\
     In (mkFeature "no_images" (fin 0.1)) (explanation r)) /\
  (is_string (title data) = true ->
   is_string (seller data) = true ->
   primitive (price data) = true ->
   primitive (rating data) = true ->
   primitive (review_count data) = true ->
   primitive (category data) = true ->
   exists l r,
     locals (withImages data v) = Ok l /\
     generateMockAnalysis (withImages data v) now = Ok r /\
     imageCount l = 0%nat /\
     In (NoImages, fin 0.1) (contributions l) /\
     score r = min (total (contributions l)) (Fin 1) /\
     In (mkFeature "no_images" (fin 0.1)) (explanation r)).
Proof.
  intros Hv.
  assert (Hfacts : forall r,
     generateMockAnalysis (withImages data v) now = Ok r ->
     (exists l,
        locals (withImages data v) = Ok l /\
        imageCount l = 0%nat /\
        In (NoImages, fin 0.1) (contributions l) /\
        score r = min (total (contributions l)) (Fin 1)) /\
     In (mkFeature "no_images" (fin 0.1)) (explanation r)).
  { intros r H.
    destruct (generateMockAnalysis_ok _ _ _ H) as (l & Hl & Hs & _ & He & _).
    pose proof (imageCount_non_array _ _ _ Hv Hl) as Hi.
    split.
    + exists l. repeat split; try assumption.
      * unfold contributions. rewrite Hi. cbn [Nat.eqb].
        rewrite !in_app_iff. do 4 right. now left.
      * now rewrite Hs, suspiciousness_total.
    + rewrite He. apply filter_In. split; [|reflexivity].
      unfold entries. rewrite Hi. cbn [Nat.eqb].
      do 3 right. now left. }
  split; [|split; [|split]].
  - unfold generateMockAnalysis.
    now rewrite locals_withImages_undefined, locals_withImages_non_array.
  - unfold generateMockAnalysis.
    now rewrite locals_withImages_non_array.
  - exact Hfacts.
  - intros Ht Hs Hp Hr Hc Hk.
    destruct (generateMockAnalysis_total (withImages data v) now)
      as (r & Hgen); try assumption.
    destruct (Hfacts r Hgen) as ((l & Hl & Hi & Hin & Hsc) & Hex).
    exists l, r. repeat split; assumption.
Qed.

(* ===================================================================== *)
(** ** Validation and fallback *)
(* ===================================================================== *)

Lemma number_primitive (v : jsval) : is_number v = true -> primitive v = true.
Proof. destruct v; simpl; congruence. Qed.

Lemma json_number_is_number (v : jsval) :
  is_json_number v = true -> is_number v = true.
Proof. destruct v; simpl; congruence. Qed.

(** The validation test, disjunct by disjunct. *)
Lemma invalid_iff (body : Data) :
  invalid body = true <->
  ToBoolean (title body) = false \/ is_number (price body) = false \/
  ToBoolean (seller body) = false \/ is_undefined (rating body) = true \/
  is_undefined (review_count body) = true.
Proof.
  unfold invalid.
  destruct (ToBoolean (title body)), (is_number (price body)),
    (ToBoolean (seller body)), (is_undefined (rating body)),
    (is_undefined (review_count body)); simpl; intuition congruence.
Qed.

Lemma POST_invalid (parsed : jsval) (body : Data) (backend : FetchOutcome)
  (now : string) :
  props parsed = Ok body -> invalid body = true ->
  POST (Ok parsed) backend now =
    mkResponse (ErrorBody "Missing or invalid required fields") 400.
Proof.
  intros Hp Hi. unfold POST. cbn [bind]. rewrite Hp. cbn [bind].
  now rewrite Hi.
Qed.

Lemma POST_valid (parsed : jsval) (body : Data) (backend : FetchOutcome)
  (now : string) :
  props parsed = Ok body -> invalid body = false ->
  POST (Ok parsed) backend now =
    match callMLService body backend now with
    | Ok a => mkResponse (AnalysisBody a) 200
    | Throw _ => mkResponse (ErrorBody "Internal server error") 500
    end.
Proof.
  intros Hp Hi. unfold POST. cbn [bind]. rewrite Hp. cbn [bind].
  rewrite Hi. now destruct (callMLService body backend now).
Qed.

(** [callMLService] returns whenever the heuristic engine does. *)
Lemma callMLService_total (data : Data) (backend : FetchOutcome)
  (now : string) (r : AnalysisResult) :
  generateMockAnalysis data now = Ok r ->
  exists a, callMLService data backend now = Ok a /\
    forall r', a = FromHeuristic r' -> r' = r.
Proof.
  intros H. unfold callMLService. rewrite H. cbn [bind].
  destruct backend as [| |st [reply|e]]; try destruct (negb (ok st));
    eexists; (split; [reflexivity|]); intros r' E;
    try discriminate; now injection E.
Qed.

(** C8 (amended).  The endpoint answers 400 exactly when the body, not
    being null, has a falsy [title], a [price] whose type is not number, a
    falsy [seller], or an undefined [rating] or [review_count]; the answer
    then does not depend on the backend.  A request that passes this test
    and whose [title] and [seller] are strings and whose [rating],
    [review_count] and [category] are primitive values is answered 200
    with an analysis: the backend's reply or the heuristic engine's
    result. *)
Theorem validation_gate (parsed : jsval) (body : Data)
  (backend : FetchOutcome) (now : string) :
  props parsed = Ok body ->
  (invalid body = true ->
   POST (Ok parsed) backend now =
     mkResponse (ErrorBody "Missing or invalid required fields") 400) /\
  (status (POST (Ok parsed) backend now) = 400%nat -> invalid body = true) /\
  (invalid body = false ->
   is_string (title body) = true -> is_string (seller body) = true ->
   primitive (rating body) = true -> primitive (review_count body) = true ->
   primitive (category body) = true ->
   exists a,
     callMLService body backend now = Ok a /\
     POST (Ok parsed) backend now = mkResponse (AnalysisBody a) 200 /\
     forall r, a = FromHeuristic r -> generateMockAnalysis body now = Ok r).
Proof.
  intros Hp. split; [|split].
  - now apply POST_invalid.
  - destruct (invalid body) eqn:Hi; [reflexivity|].
    rewrite (POST_valid _ _ _ _ Hp Hi).
    destruct (callMLService body backend now); simpl; discriminate.
  - intros Hi Ht Hs Hr Hc Hk.
    assert (Hprice : primitive (price body) = true).
    { apply number_primitive.
      destruct (is_number (price body)) eqn:E; [reflexivity|].
      assert (Hi' : invalid body = true)
        by (apply invalid_iff; right; left; exact E).
      congruence. }
    destruct (generateMockAnalysis_total body now Ht Hs Hprice Hr Hc Hk)
      as (r & Hgen).
    destruct (callMLService_total body backend now r Hgen) as (a & Ha & Hr').
    exists a. split; [exact Ha|]. split.
    + rewrite (POST_valid _ _ _ _ Hp Hi), Ha. reflexivity.
    + intros r' E. now rewrite (Hr' r' E).
Qed.



(* ===================================================================== *)
(** ** Further properties of the engine *)
(* ===================================================================== *)

Lemma le_lt_trans (x y z : num) :
  Num.le x y = true -> Num.lt y z = true -> Num.lt x z = true.
Proof.
  destruct x as [| | |a], y as [| | |b], z as [| | |c];
    try discriminate; try reflexivity.
  rewrite le_fin, !lt_fin. lra.
Qed.

Lemma labelOf_mono (s1 s2 : num) :
  Num.le s1 s2 = true -> (rank (labelOf s1) <= rank (labelOf s2))%nat.
Proof.
  intros Hle. unfold labelOf.
  destruct (Num.lt s2 (fin 0.4)) eqn:E4.
  - rewrite (le_lt_trans _ _ _ Hle E4). simpl. lia.
  - destruct (Num.lt s2 (fin 0.7)) eqn:E7.
    + rewrite (le_lt_trans _ _ _ Hle E7).
      destruct (Num.lt s1 (fin 0.4)); simpl; lia.
    + destruct (Num.lt s1 (fin 0.4)), (Num.lt s1 (fin 0.7)); simpl; lia.
Qed.

(** The verdict is monotone in the score: of two results of the engine,
    the one with the lower (or equal) score never has the more severe
    label. *)
Theorem label_monotone (data1 data2 : Data) (now1 now2 : string)
  (r1 r2 : AnalysisResult) :
  generateMockAnalysis data1 now1 = Ok r1 ->
  generateMockAnalysis data2 now2 = Ok r2 ->
  Num.le (score r1) (score r2) = true ->
  (rank (label r1) <= rank (label r2))%nat.
Proof.
  intros H1 H2 Hle.
  destruct (generateMockAnalysis_ok _ _ _ H1) as (_ & _ & _ & -> & _).
  destruct (generateMockAnalysis_ok _ _ _ H2) as (_ & _ & _ & -> & _).
  now apply labelOf_mono.
Qed.

(** An entry clamped at 1 that survives the filter is at most 1. *)
Lemma clamped_entry (x : num) :
  Num.gt (min x (Fin 1)) (Fin 0) = true ->
  Num.le (min x (Fin 1)) (Fin 1) = true.
Proof.
  destruct x as [| | |a]; try discriminate; try reflexivity.
  intros _. destruct (min_fin a 1) as [[-> H]|[-> H]]; apply le_fin; lra.
Qed.

Lemma NoDup_map_filter {A B : Type} (f : A -> B) (p : A -> bool)
  (xs : list A) :
  NoDup (map f xs) -> NoDup (map f (filter p xs)).
Proof.
  induction xs as [|x xs IH]; simpl; intros H; [constructor|].
  inversion H as [|? ? Hnin Hnd]; subst.
  destruct (p x); simpl; [|now apply IH].
  constructor; [|now apply IH].
  intros Hin. apply Hnin. apply in_map_iff in Hin.
  destruct Hin as (y & Hy & Hyin). apply filter_In in Hyin.
  apply in_map_iff. exists y. tauto.
Qed.

Lemma declarationOrder_NoDup : NoDup declarationOrder.
Proof.
  unfold declarationOrder.
  repeat (constructor; [simpl; intuition discriminate|]). constructor.
Qed.

Lemma explanation_unit_interval (data : Data) (now : string)
  (r : AnalysisResult) :
  generateMockAnalysis data now = Ok r ->
  Forall (fun e => Num.gt (contribution e) (Fin 0) = true /\
                   Num.le (contribution e) (Fin 1) = true)
         (explanation r).
Proof.
  intros H.
  destruct (generateMockAnalysis_ok _ _ _ H) as (l & _ & _ & _ & He & _).
  rewrite He.
  apply Forall_forall. intros e Hin. apply filter_In in Hin.
  destruct Hin as [Hin Hpos]. split; [exact Hpos|].
  unfold entries in Hin. simpl in Hin.
  destruct Hin as [<-|[<-|[<-|[<-|[<-|[]]]]]]; simpl in *.
  - now apply clamped_entry.
  - now apply clamped_entry.
  - destruct (ratingAnomaly l); [reflexivity|discriminate].
  - destruct (Nat.eqb (imageCount l) 0); [reflexivity|discriminate].
  - destruct (genericSeller l); [reflexivity|discriminate].
Qed.

(** Every entry of an explanation has a contribution greater than 0 and
    at most 1, and no feature name occurs twice. *)
Theorem explanation_entries_bounded (data : Data) (now : string)
  (r : AnalysisResult) :
  generateMockAnalysis data now = Ok r ->
  Forall (fun e => Num.gt (contribution e) (Fin 0) = true /\
                   Num.le (contribution e) (Fin 1) = true)
         (explanation r) /\
  NoDup (map feature (explanation r)).
Proof.
  intros H. split; [now apply explanation_unit_interval with (now := now) (data := data)|].
  destruct (generateMockAnalysis_ok _ _ _ H) as (l & _ & _ & _ & He & _).
  rewrite He. apply NoDup_map_filter. rewrite entries_features.
  apply declarationOrder_NoDup.
Qed.

Lemma within_add (a b c d : Q) (x y : num) :
  within a b x -> within c d y -> within (a + c) (b + d) (add x y).
Proof.
  intros (p & -> & Hp) (q & -> & Hq). simpl.
  apply within_fin. lra.
Qed.

(** A conditional [+= c] keeps the lower bound and raises the upper one by
    [c]. *)
Lemma within_cond_add (lo hi c : Q) (s : num) (flag : bool) :
  0 <= c -> within lo hi s ->
  within lo (hi + c) (if flag then add s (fin c) else s).
Proof.
  intros Hc Hs. destruct flag.
  - eapply within_weaken.
    + apply (within_add lo hi c c); [exact Hs|apply within_fin; lra].
    + lra.
    + lra.
  - eapply within_weaken; [exact Hs|lra|lra].
Qed.

Lemma words_amount_exact (n : nat) :
  within (inject_Z (Z.of_nat n) * 0.15) (inject_Z (Z.of_nat n) * 0.15)
         (mul (of_nat n) (fin 0.15)).
Proof.
  unfold of_nat. cbn [mul]. apply within_fin.
  assert (Hq : Qred 0.15 == 0.15) by apply Qred_correct.
  rewrite Hq. lra.
Qed.

(** The deviation computed by the body is NaN, positive infinity or a
    non-negative number; it is NaN exactly when the category key selects an
    inherited member or the price converts to NaN. *)
Lemma priceDeviation_cases (data : Data) (l : Locals) (key : string)
  (p : num) :
  locals data = Ok l ->
  ToPropertyKey (category data) = Ok key ->
  ToNumber (price data) = Ok p ->
  (categoryRanges_get key = Some Inherited \/ p = NaN ->
   priceDeviation l = NaN) /\
  (categoryRanges_get key <> Some Inherited -> p <> NaN ->
   priceDeviation l = PInf \/
   exists d, priceDeviation l = Fin d /\ 0 <= d).
Proof.
  intros Hl Hkey Hp.
  destruct (locals_inv _ _ Hl)
    as (t & key' & p' & s & _ & Hkey' & Hp' & _ & _ & _ & Hdev & _).
  rewrite Hkey in Hkey'. injection Hkey' as <-.
  rewrite Hp in Hp'. injection Hp' as <-.
  split.
  - intros [Hin| ->].
    + rewrite Hdev, (median_inherited key Hin). now destruct p.
    + rewrite Hdev. now destruct (median (rangeFor key)).
  - intros Hget Hnan.
    destruct (median_positive key Hget) as (m & Hm & Hpos).
    rewrite Hdev, Hm. now apply deviation_nonneg.
Qed.

Lemma priceDeviation_trichotomy (data : Data) (l : Locals) :
  locals data = Ok l ->
  priceDeviation l = NaN \/ priceDeviation l = PInf \/
  exists d, priceDeviation l = Fin d /\ 0 <= d.
Proof.
  intros Hl.
  destruct (locals_inv _ _ Hl)
    as (t & key & p & s & _ & Hkey & Hp & _).
  destruct (priceDeviation_cases _ _ _ _ Hl Hkey Hp) as [Hnan Hok].
  destruct (categoryRanges_get key) as [[lo hi|]|] eqn:Hget.
  - destruct p; [left; apply Hnan; now right| | |];
      right; apply Hok; discriminate.
  - left. apply Hnan. now left.
  - destruct p; [left; apply Hnan; now right| | |];
      right; apply Hok; discriminate.
Qed.

Lemma suspiciousness_nan (l : Locals) :
  priceDeviation l = NaN -> suspiciousness l = NaN.
Proof.
  intros Hnan. unfold suspiciousness. rewrite Hnan.
  destruct (ratingAnomaly l), (zeroReviews l), (genericSeller l),
    (Nat.eqb (imageCount l) 0); reflexivity.
Qed.

(** Unless the deviation is NaN, the running total is a number between
    0.15 times the number of matching words and that plus 0.65. *)
Lemma suspiciousness_within (l : Locals) :
  (priceDeviation l = PInf \/
   exists d, priceDeviation l = Fin d /\ 0 <= d) ->
  within (inject_Z (Z.of_nat (wordMatches l)) * 0.15)
         (inject_Z (Z.of_nat (wordMatches l)) * 0.15 + 0.65)
         (suspiciousness l).
Proof.
  intros Hdev. apply price_amount in Hdev.
  pose proof (words_amount_exact (wordMatches l)) as Hw.
  set (W := inject_Z (Z.of_nat (wordMatches l)) * 0.15) in *.
  unfold suspiciousness.
  assert (H0 : within 0 0 (Fin 0)) by (exists 0; split; [reflexivity|lra]).
  pose proof (within_add _ _ _ _ _ _ H0 Hw) as H1.
  pose proof (within_add _ _ _ _ _ _ H1 Hdev) as H2.
  pose proof (within_cond_add _ _ 0.15 _ (ratingAnomaly l) ltac:(lra) H2)
    as H3.
  pose proof (within_cond_add _ _ 0.1 _ (zeroReviews l) ltac:(lra) H3)
    as H4.
  pose proof (within_cond_add _ _ 0.1 _ (genericSeller l) ltac:(lra) H4)
    as H5.
  pose proof (within_cond_add _ _ 0.1 _ (Nat.eqb (imageCount l) 0)
                ltac:(lra) H5) as H6.
  cbv zeta. eapply within_weaken; [exact H6|lra|lra].
Qed.

(** The score is NaN exactly when the category key selects a member
    inherited from [Object.prototype] or the price converts to NaN; in
    every other case it lies between 0 and 1. *)
Theorem score_nan_iff (data : Data) (now : string) (r : AnalysisResult)
  (key : string) (p : num) :
  generateMockAnalysis data now = Ok r ->
  ToPropertyKey (category data) = Ok key ->
  ToNumber (price data) = Ok p ->
  (score r = NaN <->
   categoryRanges_get key = Some Inherited \/ p = NaN) /\
  (score r <> NaN ->
   Num.le (Fin 0) (score r) = true /\ Num.le (score r) (Fin 1) = true).
Proof.
  intros H Hkey Hp.
  destruct (generateMockAnalysis_ok _ _ _ H) as (l & Hl & Hs & _).
  destruct (priceDeviation_cases _ _ _ _ Hl Hkey Hp) as [Hnan Hok].
  assert (Hin : forall t, suspiciousness l = Fin t -> 0 <= t ->
            Num.le (Fin 0) (score r) = true /\
            Num.le (score r) (Fin 1) = true).
  { intros t Ht Ht0. rewrite Hs, Ht. apply within_le.
    apply within_min; lra. }
  assert (Hdec : (categoryRanges_get key = Some Inherited \/ p = NaN) \/
                 (categoryRanges_get key <> Some Inherited /\ p <> NaN)).
  { destruct (categoryRanges_get key) as [[lo hi|]|];
      destruct p; try (left; now auto);
      right; split; discriminate. }
  destruct Hdec as [Hbad|[Hget Hpn]].
  - assert (Hsc : score r = NaN).
    { rewrite Hs, (suspiciousness_nan l (Hnan Hbad)). reflexivity. }
    split; [tauto|]. intros Hne. now contradiction Hne.
  - destruct (suspiciousness_within l (Hok Hget Hpn))
      as (t & Ht & Ht0 & _).
    assert (Ht0' : 0 <= t).
    { eapply Qle_trans; [|exact Ht0].
      apply Qmult_le_0_compat; [|lra].
      change 0 with (inject_Z 0). rewrite <- Zle_Qle. lia. }
    destruct (Hin t Ht Ht0') as [Hlo Hhi].
    split; [|intros _; now split].
    split.
    + intros Hsc. rewrite Hsc in Hlo. discriminate.
    + intros [Hbad|Hbad]; contradiction.
Qed.

Lemma labelOf_nan : labelOf NaN = high_risk.
Proof. reflexivity. Qed.

Lemma nat_le_Q (k n : nat) :
  (k <= n)%nat -> inject_Z (Z.of_nat k) <= inject_Z (Z.of_nat n).
Proof. intros H. rewrite <- Zle_Qle. lia. Qed.

(** Three matching vocabulary terms are enough to leave [safe], and five
    are enough for [high_risk], whatever the other properties of the
    listing are. *)
Theorem many_words_raise_label (data : Data) (now : string)
  (r : AnalysisResult) (l : Locals) :
  generateMockAnalysis data now = Ok r ->
  locals data = Ok l ->
  ((3 <= wordMatches l)%nat -> label r <> safe) /\
  ((5 <= wordMatches l)%nat -> label r = high_risk).
Proof.
  intros H Hl.
  destruct (generateMockAnalysis_ok _ _ _ H) as (l' & Hl' & Hs & Hlab & _).
  rewrite Hl in Hl'. injection Hl' as <-.
  destruct (priceDeviation_trichotomy _ _ Hl) as [Hnan|Hdev].
  - rewrite Hlab, Hs, (suspiciousness_nan l Hnan).
    split; intros _; [discriminate|reflexivity].
  - destruct (suspiciousness_within l Hdev) as (t & Ht & Hlo & _).
    rewrite Hlab, Hs, Ht. split; intros Hn.
    + assert (Hw : 3 <= inject_Z (Z.of_nat (wordMatches l)))
        by exact (nat_le_Q 3 _ Hn).
      assert (Hge : Num.ge (min (Fin t) (Fin 1)) (fin 0.4) = true).
      { rewrite fin_eq.
        destruct (min_fin t 1) as [[-> _]|[-> _]]; apply ge_fin;
          rewrite Qred_correct; lra. }
      unfold labelOf.
      destruct (Num.lt (min (Fin t) (Fin 1)) (fin 0.4)) eqn:E.
      * exfalso. exact (lt_ge_excl _ _ E Hge).
      * destruct (Num.lt (min (Fin t) (Fin 1)) (fin 0.7)); discriminate.
    + assert (Hw : 5 <= inject_Z (Z.of_nat (wordMatches l)))
        by exact (nat_le_Q 5 _ Hn).
      apply labelOf_high_risk. rewrite fin_eq.
      destruct (min_fin t 1) as [[-> _]|[-> _]]; apply ge_fin;
        rewrite Qred_correct; lra.
Qed.

(** Without a vocabulary term in a title of ASCII characters the verdict
    is never [high_risk], provided the price is a number and the category
    does not name an inherited member: the other signals add at most
    0.65.  (The lower-casing of other characters is not modelled, so the
    count of matching terms is the code's only for ASCII titles.) *)
Theorem no_word_never_high_risk (data : Data) (now : string)
  (r : AnalysisResult) (l : Locals) (key : string) :
  generateMockAnalysis data now = Ok r ->
  locals data = Ok l ->
  ToPropertyKey (category data) = Ok key ->
  categoryRanges_get key <> Some Inherited ->
  is_json_number (price data) = true ->
  (forall t, title data = JStr t -> isAscii t = true) ->
  wordMatches l = 0%nat ->
  Num.le (score r) (fin 0.65) = true /\ label r <> high_risk.
Proof.
  intros H Hl Hkey Hget Hprice _ Hw.
  destruct (generateMockAnalysis_ok _ _ _ H) as (l' & Hl' & Hs & Hlab & _).
  rewrite Hl in Hl'. injection Hl' as <-.
  pose proof (priceDeviation_nonneg _ _ _ Hl Hkey Hget Hprice) as Hdev.
  destruct (suspiciousness_within l Hdev) as (t & Ht & _ & Hhi).
  rewrite Hw in Hhi. change (inject_Z (Z.of_nat 0)) with 0 in Hhi.
  assert (Hmin : min (Fin t) (Fin 1) = Fin t).
  { destruct (min_fin t 1) as [[E _]|[_ Hlt]]; [exact E|lra]. }
  rewrite Hlab, Hs, Ht, Hmin. split.
  - rewrite fin_eq. apply le_fin. rewrite Qred_correct. lra.
  - unfold labelOf.
    assert (E7 : Num.lt (Fin t) (fin 0.7) = true).
    { rewrite fin_eq. apply lt_fin. rewrite Qred_correct. lra. }
    rewrite E7. destruct (Num.lt (Fin t) (fin 0.4)); discriminate.
Qed.

(** [images] only enters the body through the image count. *)
Lemma locals_withImages (data : Data) (v : jsval) :
  locals (withImages data v) =
  (l <- locals (withImages data JUndefined) ;;
   Ok (mkLocals (wordMatches l) (medianPrice l) (priceDeviation l)
         (ratingAnomaly l) (zeroReviews l) (genericSeller l)
         (if ToBoolean v && isArray v then arrayLength v else 0%nat))).
Proof.
  unfold locals.
  cbn [withImages title category price rating review_count seller images].
  destruct (lowered (title data)); cbn [bind]; [|reflexivity].
  destruct (ToPropertyKey (category data)); cbn [bind]; [|reflexivity].
  destruct (ToNumber (price data)); cbn [bind]; [|reflexivity].
  destruct (js_ge (rating data) (fin 4.9)) as [high|]; cbn [bind];
    [|reflexivity].
  destruct (match high with
            | true => js_lt (review_count data) (Fin 10)
            | false => Ok false
            end); cbn [bind]; [|reflexivity].
  destruct (lowered (seller data)); cbn [bind]; reflexivity.
Qed.

(** One more [+= 0.1] before the clamp never lowers the score nor the
    verdict. *)
Lemma clamp_after_increment (s : num) :
  Num.lt (min (add s (fin 0.1)) (Fin 1)) (min s (Fin 1)) = false /\
  (rank (labelOf (min s (Fin 1))) <=
   rank (labelOf (min (add s (fin 0.1)) (Fin 1))))%nat.
Proof.
  destruct s as [| | |t]; try (split; [reflexivity|simpl; lia]).
  cbn [add]. rewrite !fin_eq.
  assert (Hq : Qred 0.1 == 0.1) by apply Qred_correct.
  set (u := Qred (t + Qred 0.1)).
  assert (Hu : u == t + 0.1).
  { unfold u. rewrite Qred_correct, Hq. reflexivity. }
  assert (Hle : Num.le (min (Fin t) (Fin 1)) (min (Fin u) (Fin 1)) = true).
  { destruct (min_fin t 1) as [[-> H1]|[-> H1]];
      destruct (min_fin u 1) as [[-> H2]|[-> H2]]; apply le_fin; lra. }
  split.
  - destruct (Num.lt (min (Fin u) (Fin 1)) (min (Fin t) (Fin 1))) eqn:E;
      [|reflexivity].
    exfalso. exact (lt_le_excl _ _ E Hle).
  - now apply labelOf_mono.
Qed.

(** A listing with images never scores higher, and never gets a more
    severe verdict, than the same listing without images. *)
Theorem images_never_raise_score (data : Data) (elems : list jsval)
  (now : string) (r0 r1 : AnalysisResult) :
  generateMockAnalysis (withImages data (JArr [])) now = Ok r0 ->
  generateMockAnalysis (withImages data (JArr elems)) now = Ok r1 ->
  Num.lt (score r0) (score r1) = false /\
  (rank (label r1) <= rank (label r0))%nat.
Proof.
  intros H0 H1.
  destruct (generateMockAnalysis_ok _ _ _ H0)
    as (l0 & Hl0 & Hs0 & Hlab0 & _).
  destruct (generateMockAnalysis_ok _ _ _ H1)
    as (l1 & Hl1 & Hs1 & Hlab1 & _).
  rewrite locals_withImages in Hl0, Hl1.
  destruct (locals (withImages data JUndefined)) as [lb|]; cbn [bind] in *;
    [|discriminate].
  injection Hl0 as <-. injection Hl1 as <-.
  rewrite Hlab0, Hlab1, Hs0, Hs1.
  unfold suspiciousness.
  cbn [wordMatches medianPrice priceDeviation ratingAnomaly zeroReviews
       genericSeller imageCount ToBoolean isArray arrayLength andb
       List.length Nat.eqb].
  match goal with
  | |- context [min (add ?s (fin 0.1)) (Fin 1)] => set (s5 := s)
  end.
  destruct elems as [|x xs]; cbn [List.length Nat.eqb].
  - split; [|lia].
    destruct (min (add s5 (fin 0.1)) (Fin 1)) as [| | |q];
      try reflexivity.
    destruct (Num.lt (Fin q) (Fin q)) eqn:E; [|reflexivity].
    apply lt_fin in E. lra.
  - apply clamp_after_increment.
Qed.

(** [(s || "").toLowerCase()] of a string is its lower-casing, the empty
    string included. *)
Lemma lowered_JStr (s : string) : lowered (JStr s) = Ok (toLowerCase s).
Proof.
  unfold lowered, ToBoolean. destruct s; reflexivity.
Qed.


Lemma deviation_value (p m : Q) :
  0 < m ->
  exists d, div (abs (sub (Fin p) (Fin m))) (Fin m) = Fin (Qred d) /\
            d == Qabs (p - m) / m.
Proof.
  intros Hm. cbn [sub neg add abs div fin].
  destruct (m ?= 0) eqn:E.
  - apply Qeq_alt in E. lra.
  - apply Qlt_alt in E. lra.
  - eexists. split; [reflexivity|].
    apply Qdiv_comp; [|reflexivity].
    rewrite Qred_correct. apply Qabs_wd.
    rewrite !Qred_correct. ring.
Qed.

Lemma median_finite_positive (key : string) (m : Q) :
  median (rangeFor key) = Fin m -> 0 < m.
Proof.
  intros Hm.
  assert (Hget : categoryRanges_get key <> Some Inherited).
  { intros Hin. rewrite (median_inherited key Hin) in Hm. discriminate. }
  destruct (median_positive key Hget) as (m' & Hm' & Hpos).
  rewrite Hm in Hm'. injection Hm' as <-. exact Hpos.
Qed.

(** Too cheap and too expensive weigh the same: two whole-number prices
    at the same distance on either side of the category's median give the
    same analysis.  (Whole numbers up to 2^53 are the prices a request
    carries exactly; for them the difference from the median is exact or
    rounds symmetrically, so the two runs compute the same deviation.) *)
Theorem price_symmetric (data : Data) (key : string) (m : Q) (z1 z2 : Z)
  (now : string) :
  ToPropertyKey (category data) = Ok key ->
  median (rangeFor key) = Fin m ->
  (Z.abs z1 <= 2 ^ 53)%Z ->
  (Z.abs z2 <= 2 ^ 53)%Z ->
  inject_Z z1 + inject_Z z2 == 2 * m ->
  generateMockAnalysis (withPrice data (JNum (Fin (inject_Z z1)))) now =
  generateMockAnalysis (withPrice data (JNum (Fin (inject_Z z2)))) now.
Proof.
  intros Hkey Hm _ _ Hsym.
  set (p1 := inject_Z z1) in *. set (p2 := inject_Z z2) in *.
  pose proof (median_finite_positive key m Hm) as Hpos.
  destruct (deviation_value p1 m Hpos) as (d1 & E1 & Hd1).
  destruct (deviation_value p2 m Hpos) as (d2 & E2 & Hd2).
  assert (Hd : Qred d1 = Qred d2).
  { apply Qred_complete. rewrite Hd1, Hd2.
    apply Qdiv_comp; [|reflexivity].
    assert (Hopp : p2 - m == - (p1 - m)) by lra.
    rewrite Hopp. symmetry. apply Qabs_opp. }
  unfold generateMockAnalysis, locals.
  cbn [withPrice title category price rating review_count seller images
       ToNumber].
  rewrite Hkey.
  destruct (lowered (title data)); cbn [bind]; [|reflexivity].
  rewrite Hm, E1, E2, Hd. reflexivity.
Qed.


(* ===================================================================== *)
(** ** Further properties of the route *)
(* ===================================================================== *)

Lemma callMLService_delivered (data : Data) (st : nat) (reply : jsval)
  (now : string) :
  ok st = true ->
  callMLService data (Responded st (Ok reply)) now = Ok (FromService reply).
Proof. intros H. unfold callMLService. now rewrite H. Qed.

Lemma callMLService_not_delivered (data : Data) (backend : FetchOutcome)
  (now : string) :
  delivered backend = false ->
  callMLService data backend now =
  (r <- generateMockAnalysis data now ;; Ok (FromHeuristic r)).
Proof.
  intros H. unfold callMLService.
  destruct backend as [| |st [reply|e]]; try reflexivity.
  - simpl in H. now rewrite H.
  - destruct (negb (ok st)); reflexivity.
Qed.

(** Engine selection as the caller sees it, for a body that passes
    validation.  A reply with a status in 200-299 and a body that parses
    is returned verbatim with status 200, whatever it contains and even if
    the heuristic engine could not have scored the listing.  Every other
    outcome of the backend call (timeout, transport failure, another
    status, a body that does not parse) leads to one and the same
    response. *)
Theorem engine_selection (parsed : jsval) (body : Data) (now : string) :
  props parsed = Ok body ->
  invalid body = false ->
  (forall st reply,
     ok st = true ->
     POST (Ok parsed) (Responded st (Ok reply)) now =
       mkResponse (AnalysisBody (FromService reply)) 200) /\
  (forall b1 b2,
     delivered b1 = false -> delivered b2 = false ->
     POST (Ok parsed) b1 now = POST (Ok parsed) b2 now).
Proof.
  intros Hp Hi. split.
  - intros st reply Hok.
    rewrite (POST_valid _ _ _ _ Hp Hi), (callMLService_delivered _ _ _ _ Hok).
    reflexivity.
  - intros b1 b2 H1 H2.
    rewrite !(POST_valid _ _ _ _ Hp Hi).
    now rewrite (callMLService_not_delivered _ _ _ H1),
                (callMLService_not_delivered _ _ _ H2).
Qed.

(** The route has three answers and no other: 200 with an analysis, 400
    with the validation message, 500 with the internal-error message. *)
Theorem POST_answers (requestJson : result jsval) (backend : FetchOutcome)
  (now : string) :
  (exists a,
     POST requestJson backend now = mkResponse (AnalysisBody a) 200) \/
  POST requestJson backend now =
    mkResponse (ErrorBody "Missing or invalid required fields") 400 \/
  POST requestJson backend now =
    mkResponse (ErrorBody "Internal server error") 500.
Proof.
  unfold POST.
  destruct requestJson as [parsed|e]; cbn [bind]; [|now right; right].
  destruct (props parsed) as [body|e]; cbn [bind]; [|now right; right].
  destruct (invalid body); [now right; left|].
  destruct (callMLService body backend now) as [a|e]; cbn [bind].
  - left. now exists a.
  - now right; right.
Qed.

(** A request whose body is not a JSON object never reaches the engine: a
    body that does not parse, or that is [null], is answered 500; a
    string, number, boolean or array is answered 400. *)
Theorem non_object_body (backend : FetchOutcome) (now : string) :
  (forall e,
     POST (Throw e) backend now =
       mkResponse (ErrorBody "Internal server error") 500) /\
  POST (Ok JNull) backend now =
    mkResponse (ErrorBody "Internal server error") 500 /\
  (forall parsed,
     match parsed with
     | JBool _ | JNum _ | JStr _ | JArr _ => True
     | _ => False
     end ->
     POST (Ok parsed) backend now =
       mkResponse (ErrorBody "Missing or invalid required fields") 400).
Proof.
  split; [reflexivity|]. split; [reflexivity|].
  intros parsed H. destruct parsed; try contradiction; reflexivity.
Qed.

Lemma lowered_non_string (v : jsval) :
  ToBoolean v = true -> is_string v = false -> lowered v = Throw TypeError.
Proof.
  intros Ht Hs. unfold lowered. rewrite Ht.
  destruct v; try reflexivity. discriminate.
Qed.

(** A title or seller that is truthy but not a string makes the engine
    throw. *)
Lemma non_string_text_throws (data : Data) (now : string) :
  (ToBoolean (title data) = true /\ is_string (title data) = false) \/
  (ToBoolean (seller data) = true /\ is_string (seller data) = false) ->
  exists e, generateMockAnalysis data now = Throw e.
Proof.
  intros H. unfold generateMockAnalysis, locals.
  destruct H as [[Ht Hs]|[Ht Hs]].
  - rewrite (lowered_non_string _ Ht Hs). now eexists.
  - rewrite (lowered_non_string (seller data) Ht Hs).
    destruct (lowered (title data)); cbn [bind]; [|now eexists].
    destruct (ToPropertyKey (category data)); cbn [bind]; [|now eexists].
    destruct (ToNumber (price data)); cbn [bind]; [|now eexists].
    destruct (js_ge (rating data) (fin 4.9)) as [high|]; cbn [bind];
      [|now eexists].
    destruct (match high with
              | true => js_lt (review_count data) (Fin 10)
              | false => Ok false
              end); cbn [bind]; now eexists.
Qed.

(** Validation lets through a title or seller that is truthy but not a
    string (a number, [true], an array, an object).  The engine then
    throws, so such a request is answered 500 whenever the backend does not
    deliver a reply. *)
Theorem non_string_text_is_internal_error (parsed : jsval) (body : Data)
  (backend : FetchOutcome) (now : string) :
  props parsed = Ok body ->
  invalid body = false ->
  is_string (title body) = false \/ is_string (seller body) = false ->
  delivered backend = false ->
  (exists e, generateMockAnalysis body now = Throw e) /\
  POST (Ok parsed) backend now =
    mkResponse (ErrorBody "Internal server error") 500.
Proof.
  intros Hp Hi Hbad Hnd.
  assert (Ht : ToBoolean (title body) = true /\
               ToBoolean (seller body) = true).
  { unfold invalid in Hi.
    destruct (ToBoolean (title body)); [|discriminate].
    destruct (is_number (price body)); [|discriminate].
    destruct (ToBoolean (seller body)); [|discriminate]. now split. }
  destruct Ht as [Ht Hs].
  assert (Hthrow : exists e, generateMockAnalysis body now = Throw e).
  { apply non_string_text_throws. destruct Hbad; [left|right]; now split. }
  split; [exact Hthrow|].
  destruct Hthrow as (e & He).
  rewrite (POST_valid _ _ _ _ Hp Hi),
          (callMLService_not_delivered _ _ _ Hnd), He.
  reflexivity.
Qed.

(* ===================================================================== *)
(** ** The live monitor *)
(* ===================================================================== *)

Lemma firstn_cons_firstn {A : Type} (n : nat) (x : A) (l : list A) :
  firstn (S n) (x :: firstn (S n) l) = firstn (S n) (x :: l).
Proof.
  cbn [firstn]. f_equal.
  revert l. induction n as [|n IH]; intros l; [reflexivity|].
  destruct l as [|y l]; [reflexivity|].
  cbn [firstn]. f_equal. apply IH.
Qed.

(** The monitor's table always shows the twenty most recent listings,
    newest first: after the interval has fired for [news] the buffer is
    the first twenty elements of [news] reversed, so it never holds more
    than twenty rows. *)
Theorem monitor_keeps_latest_twenty {A : Type} (news : list A) :
  monitor news = firstn 20 (rev news) /\
  List.length (monitor news) = Nat.min 20 (List.length news).
Proof.
  assert (G : forall (l acc : list A),
            fold_left (fun prev n => pushListing n prev) l (firstn 20 acc) =
            firstn 20 (rev l ++ acc)).
  { induction l as [|x l IH]; intros acc; [reflexivity|].
    cbn [fold_left rev]. unfold pushListing at 2.
    rewrite (firstn_cons_firstn 19), IH, <- app_assoc. reflexivity. }
  assert (H : monitor news = firstn 20 (rev news)).
  { unfold monitor. rewrite <- (app_nil_r (rev news)). exact (G news []). }
  split; [exact H|].
  rewrite H, length_firstn, length_rev. reflexivity.
Qed.

(* ===================================================================== *)
(** ** The explanation panel *)
(* ===================================================================== *)

Lemma chars_length (s : string) :
  List.length (list_ascii_of_string s) = String.length s.
Proof. induction s as [|c s IH]; simpl; [reflexivity|now rewrite IH]. Qed.

Lemma chars_append (a b : string) :
  list_ascii_of_string (a ++ b) =
  (list_ascii_of_string a ++ list_ascii_of_string b)%list.
Proof. induction a as [|c a IH]; simpl; [reflexivity|now rewrite IH]. Qed.

Lemma upper_ascii_underscore (c : ascii) :
  upper_ascii c = "_"%char -> c = "_"%char.
Proof.
  destruct c as [[] [] [] [] [] [] [] []]; vm_compute; intros H;
    try reflexivity; discriminate H.
Qed.

Lemma capitalize_length (w : string) :
  String.length (capitalize w) = String.length w.
Proof. now destruct w. Qed.

Lemma capitalize_underscore (w : string) :
  In "_"%char (list_ascii_of_string (capitalize w)) ->
  In "_"%char (list_ascii_of_string w).
Proof.
  destruct w as [|c w]; [easy|]. simpl. intros [H|H]; [left|now right].
  now apply upper_ascii_underscore.
Qed.

(** The segments of a split: none contains the separator, and together
    with one separator between neighbours they make up the length of the
    string. *)
Lemma split_segments (s : string) :
  exists w ws,
    split "_" s = w :: ws /\
    Forall (fun v => ~ In "_"%char (list_ascii_of_string v)) (w :: ws) /\
    (String.length w +
     fold_right (fun v n => S (String.length v + n)) 0 ws)%nat =
    String.length s.
Proof.
  induction s as [|c s (w & ws & Hs & Hall & Hlen)].
  - exists EmptyString, []. repeat split. repeat constructor. easy.
  - cbn [split]. destruct (Ascii.eqb c "_") eqn:E.
    + exists EmptyString, (w :: ws). rewrite Hs. split; [reflexivity|].
      split.
      * constructor; [easy|exact Hall].
      * cbn [fold_right String.length]. lia.
    + exists (String c w), ws. rewrite Hs. split; [reflexivity|]. split.
      * inversion Hall as [|? ? Hw Hws]; subst. constructor; [|exact Hws].
        simpl. intros [H|H]; [|now apply Hw].
        apply Ascii.eqb_neq in E. congruence.
      * cbn [String.length]. lia.
Qed.

Lemma joined_segments (w : string) (ws : list string) :
  Forall (fun v => ~ In "_"%char (list_ascii_of_string v)) (w :: ws) ->
  String.length (String.concat " " (map capitalize (w :: ws))) =
    (String.length w +
     fold_right (fun v n => S (String.length v + n)) 0 ws)%nat /\
  ~ In "_"%char
      (list_ascii_of_string (String.concat " " (map capitalize (w :: ws)))).
Proof.
  revert w. induction ws as [|v ws IH]; intros w Hall.
  - inversion Hall as [|? ? Hw _]; subst. cbn [map String.concat fold_right].
    rewrite capitalize_length. split; [lia|].
    intros H. now apply Hw, capitalize_underscore.
  - inversion Hall as [|? ? Hw Hrest]; subst.
    destruct (IH v Hrest) as [Hlen Hno].
    cbn [map String.concat] in *. cbn [fold_right].
    rewrite <- !chars_length in *. rewrite !chars_append.
    rewrite !length_app. split.
    + rewrite Hlen. rewrite !chars_length, capitalize_length.
      change (String.length " ") with 1%nat. lia.
    + rewrite !in_app_iff. intros [H|[H|H]].
      * now apply Hw, capitalize_underscore.
      * simpl in H. destruct H as [H|[]]. discriminate H.
      * now apply Hno.
Qed.

(** The display name of a feature made of ASCII characters has the length
    of the feature's identifier and contains no underscore. *)
Theorem formatFeatureName_shape (feature : string) :
  isAscii feature = true ->
  String.length (formatFeatureName feature) = String.length feature /\
  ~ In "_"%char (list_ascii_of_string (formatFeatureName feature)).
Proof.
  intros _. unfold formatFeatureName.
  destruct (split_segments feature) as (w & ws & -> & Hall & Hlen).
  destruct (joined_segments w ws Hall) as [Hl Hno].
  split; [now rewrite Hl|exact Hno].
Qed.

(** A contribution greater than 0 and at most 1 is a finite number. *)
Lemma unit_interval_fin (c : num) :
  Num.gt c (Fin 0) = true -> Num.le c (Fin 1) = true ->
  exists q, c = Fin q /\ 0 < q <= 1.
Proof.
  destruct c as [| | |q]; try discriminate.
  rewrite gt_fin, le_fin. intros H0 H1. now exists q.
Qed.

Lemma fold_contribution_value (es : list FeatureContribution) (acc : num)
  (a : Q) :
  within a a acc ->
  Forall (fun e => exists q, contribution e = Fin q /\ 0 < q) es ->
  within (a + fold_right (fun e s => valueOf (contribution e) + s) 0 es)
         (a + fold_right (fun e s => valueOf (contribution e) + s) 0 es)
         (fold_left (fun s e => add s (contribution e)) es acc).
Proof.
  revert acc a. induction es as [|e es IH]; intros acc a Hacc Hall.
  - cbn [fold_left fold_right]. eapply within_weaken; [exact Hacc|lra|lra].
  - inversion Hall as [|? ? (q & Hq & Hpos) Hrest]; subst.
    cbn [fold_left fold_right]. rewrite Hq. cbn [valueOf].
    assert (Hstep : within (a + q) (a + q) (add acc (Fin q))).
    { apply within_add; [exact Hacc|]. exists q. split; [reflexivity|lra]. }
    eapply within_weaken; [exact (IH _ _ Hstep Hrest)|lra|lra].
Qed.

Lemma contribution_sum_positive (es : list FeatureContribution) :
  Forall (fun e => exists q, contribution e = Fin q /\ 0 < q) es ->
  0 <= fold_right (fun e s => valueOf (contribution e) + s) 0 es /\
  (es <> [] ->
   0 < fold_right (fun e s => valueOf (contribution e) + s) 0 es).
Proof.
  induction 1 as [|e es (q & Hq & Hpos) _ [IH0 _]].
  - split; [simpl; lra|congruence].
  - cbn [fold_right]. rewrite Hq. cbn [valueOf]. split; intros; lra.
Qed.

(** The denominator of the bars: the mean contribution. *)
Lemma mean_contribution (es : list FeatureContribution) :
  es <> [] ->
  Forall (fun e => exists q, contribution e = Fin q /\ 0 < q) es ->
  exists D,
    div (totalContribution es) (of_nat (List.length es)) = Fin D /\
    0 < D /\
    D * inject_Z (Z.of_nat (List.length es)) ==
      fold_right (fun e s => valueOf (contribution e) + s) 0 es.
Proof.
  intros Hne Hall.
  assert (H0 : within 0 0 (Fin 0)) by (exists 0; split; [reflexivity|lra]).
  destruct (fold_contribution_value es (Fin 0) 0 H0 Hall) as (t & Ht & Hv).
  destruct (contribution_sum_positive es Hall) as [_ Hpos].
  specialize (Hpos Hne).
  set (S := fold_right (fun e s => valueOf (contribution e) + s) 0 es) in *.
  assert (HN : 0 < inject_Z (Z.of_nat (List.length es))).
  { change 0 with (inject_Z 0). rewrite <- Zlt_Qlt.
    destruct es; [congruence|simpl; lia]. }
  set (N := inject_Z (Z.of_nat (List.length es))) in *.
  assert (Htpos : 0 < t) by lra.
  unfold totalContribution. rewrite Ht.
  assert (Htrue : ToBoolean (JNum (Fin t)) = true).
  { cbn [ToBoolean]. unfold Num.eq. cbn [cmp].
    apply Qgt_alt in Htpos. now rewrite Htpos. }
  rewrite Htrue. unfold of_nat. fold N. cbn [div].
  assert (EN : (N ?= 0) = Gt) by now apply Qgt_alt.
  rewrite EN. exists (Qred (t / N)). split; [reflexivity|].
  rewrite Qred_correct.
  assert (Hdiv : t / N * N == t) by (field; lra).
  split.
  - apply Qlt_shift_div_l; lra.
  - rewrite Hdiv. lra.
Qed.

Lemma width_value (D q : Q) :
  0 < D ->
  within (q / D * 100) (q / D * 100) (mul (div (Fin q) (Fin D)) (Fin 100)).
Proof.
  intros HD. cbn [div].
  assert (ED : (D ?= 0) = Gt) by now apply Qgt_alt.
  rewrite ED. cbn [mul fin]. apply within_fin.
  rewrite Qred_correct. split; apply Qle_refl.
Qed.

Lemma fold_widths_value (es es' : list FeatureContribution) (D : Q)
  (acc : num) (a : Q) :
  div (totalContribution es) (of_nat (List.length es)) = Fin D ->
  0 < D ->
  within a a acc ->
  Forall (fun e => exists q, contribution e = Fin q /\ 0 < q) es' ->
  within
    (a + fold_right (fun e s => valueOf (contribution e) + s) 0 es' / D * 100)
    (a + fold_right (fun e s => valueOf (contribution e) + s) 0 es' / D * 100)
    (fold_left add (map (barWidth es) es') acc).
Proof.
  intros HD HDpos. revert acc a.
  induction es' as [|e es' IH]; intros acc a Hacc Hall.
  - cbn [map fold_left fold_right].
    assert (Hz : 0 / D * 100 == 0) by (field; lra).
    eapply within_weaken; [exact Hacc|lra|lra].
  - inversion Hall as [|? ? (q & Hq & Hpos) Hrest]; subst.
    cbn [map fold_left fold_right]. rewrite Hq. cbn [valueOf].
    assert (Hw : within (q / D * 100) (q / D * 100) (barWidth es e)).
    { unfold barWidth. rewrite HD, Hq. now apply width_value. }
    pose proof (within_add _ _ _ _ _ _ Hacc Hw) as Hstep.
    set (S := fold_right (fun e s => valueOf (contribution e) + s) 0 es')
      in *.
    assert (Hsplit : (q + S) / D * 100 == q / D * 100 + S / D * 100)
      by (field; lra).
    eapply within_weaken; [exact (IH _ _ Hstep Hrest)|lra|lra].
Qed.

(** The bars of the panel are drawn relative to the mean contribution:
    for the explanation of any result of the engine their widths add up to
    100 percent times the number of entries, and the number shown under
    "Impact" is greater than 0 and at most 100. *)
Theorem bar_widths_average_100 (data : Data) (now : string)
  (r : AnalysisResult) :
  generateMockAnalysis data now = Ok r ->
  (exists w,
     sumOf (map (barWidth (explanation r)) (explanation r)) = Fin w /\
     w == 100 * inject_Z (Z.of_nat (List.length (explanation r)))) /\
  Forall (fun e => Num.gt (impact e) (Fin 0) = true /\
                   Num.le (impact e) (Fin 100) = true)
         (explanation r).
Proof.
  intros H.
  pose proof (explanation_unit_interval _ _ _ H) as Hunit.
  assert (Hall : Forall (fun e => exists q, contribution e = Fin q /\ 0 < q)
                        (explanation r)).
  { eapply Forall_impl; [|exact Hunit]. intros e [H0 H1].
    destruct (unit_interval_fin _ H0 H1) as (q & Hq & Hpos & _).
    now exists q. }
  split.
  - destruct (explanation r) as [|e0 es0] eqn:Ees.
    + exists 0. split; reflexivity.
    + rewrite <- Ees in *.
      assert (Hne : explanation r <> []) by (rewrite Ees; discriminate).
      destruct (mean_contribution _ Hne Hall) as (D & HD & HDpos & HDN).
      assert (H0 : within 0 0 (Fin 0)) by (exists 0; split; [reflexivity|lra]).
      destruct (fold_widths_value _ _ D _ _ HD HDpos H0 Hall)
        as (w & Hw & Hv).
      exists w. split; [exact Hw|].
      set (S := fold_right (fun e s => valueOf (contribution e) + s) 0
                  (explanation r)) in *.
      set (N := inject_Z (Z.of_nat (List.length (explanation r)))) in *.
      assert (HS : S / D * 100 == 100 * N).
      { rewrite <- HDN. field. lra. }
      lra.
  - eapply Forall_impl; [|exact Hunit]. intros e [H0 H1].
    destruct (unit_interval_fin _ H0 H1) as (q & Hq & Hpos & Hle).
    unfold impact. rewrite Hq. cbn [mul]. rewrite fin_eq, gt_fin, le_fin.
    rewrite Qred_correct. lra.
Qed.

(* ===================================================================== *)
(** ** The score card and the analyze page *)
(* ===================================================================== *)

(** The score of a result is NaN or a number between 0 and 1. *)
Lemma score_shape (data : Data) (now : string) (r : AnalysisResult) :
  generateMockAnalysis data now = Ok r ->
  (score r = NaN /\ label r = high_risk) \/ within 0 1 (score r).
Proof.
  intros H.
  destruct (generateMockAnalysis_ok _ _ _ H) as (l & Hl & Hs & Hlab & _).
  destruct (priceDeviation_trichotomy _ _ Hl) as [Hnan|Hdev].
  - left. rewrite Hlab, Hs, (suspiciousness_nan l Hnan). now split.
  - right. destruct (suspiciousness_within l Hdev) as (t & Ht & Hlo & _).
    assert (Ht0 : 0 <= t).
    { eapply Qle_trans; [|exact Hlo].
      apply Qmult_le_0_compat; [|lra].
      change 0 with (inject_Z 0). rewrite <- Zle_Qle. lia. }
    rewrite Hs, Ht. apply within_min; lra.
Qed.

Lemma score_on_the_wire (r : AnalysisResult) :
  getField "score" (wire (resultValue r)) = wire (JNum (score r)) /\
  getField "label" (wire (resultValue r)) = JStr (labelString (label r)).
Proof. split; reflexivity. Qed.

(** What the score card shows for a result of the engine that reached the
    page: the percentage is a number between 0 and 100.  A NaN score
    arrives as [null], so the card shows 0 percent, under the red stroke
    of [high_risk]. *)
Theorem card_percentage (data : Data) (now : string) (r : AnalysisResult) :
  generateMockAnalysis data now = Ok r ->
  exists p,
    percentage (getField "score" (wire (resultValue r))) = Ok (Fin p) /\
    0 <= p <= 100 /\
    (score r = NaN ->
     p == 0 /\
     strokeColor (getField "label" (wire (resultValue r))) = "#dc2626").
Proof.
  intros H. destruct (score_on_the_wire r) as [-> ->].
  destruct (score_shape _ _ _ H) as [[Hnan Hlab]|(q & Hq & Hq0 & Hq1)].
  - rewrite Hnan, Hlab. exists 0. split; [reflexivity|].
    split; [lra|]. intros _. split; reflexivity.
  - rewrite Hq. exists (Qred (q * 100)). split; [reflexivity|].
    rewrite Qred_correct. split; [lra|]. discriminate.
Qed.

Lemma wire_strings (lines : list string) :
  map (fun x => match x with
                | JUndefined => JNull
                | _ => wire x
                end) (map JStr lines) = map JStr lines.
Proof. induction lines as [|x xs IH]; simpl; [reflexivity|now rewrite IH]. Qed.

(** The route reads [listingOf formData] from the request of the page. *)
Lemma props_of_payload (parseFloat parseInt : string -> num)
  (formData : FormData) :
  props (wire (payloadOf parseFloat parseInt formData)) =
  Ok (listingOf parseFloat parseInt formData).
Proof.
  unfold payloadOf, listingOf.
  cbn [wire props getOwn String.eqb Ascii.eqb Bool.eqb].
  rewrite wire_strings.
  destruct (finite (parseFloat (form_price formData)));
    destruct (finite (parseFloat (form_rating formData)));
    destruct (finite (parseInt (form_review_count formData)));
    reflexivity.
Qed.

Lemma wire_number_primitive (n : num) : primitive (wire (JNum n)) = true.
Proof. cbn [wire]. now destruct (finite n). Qed.

Lemma invalid_listingOf (parseFloat parseInt : string -> num)
  (formData : FormData) :
  invalid (listingOf parseFloat parseInt formData) =
  String.eqb (form_title formData) ""
  || negb (finite (parseFloat (form_price formData)))
  || String.eqb (form_seller formData) "".
Proof.
  unfold invalid, listingOf.
  cbn [title price seller rating review_count ToBoolean wire].
  rewrite !negb_involutive.
  destruct (finite (parseFloat (form_price formData)));
    destruct (finite (parseFloat (form_rating formData)));
    destruct (finite (parseInt (form_review_count formData)));
    cbn [is_number is_undefined negb orb];
    now rewrite ?orb_false_r, ?orb_true_r.
Qed.

(** What the page shows after a submission.  If the title or the seller
    is empty, or the price text does not parse to a finite number (it is
    sent as [null]), the route answers 400 and the page shows
    "Analysis failed", whatever the backend does.  Otherwise, when the
    backend delivers no reply, the heuristic engine scores the listing and
    the page shows its result; no other field of the form can make the
    submission fail. *)
Theorem submit_outcome (parseFloat parseInt : string -> num)
  (formData : FormData) (backend : FetchOutcome) (now : string) :
  (form_title formData = "" \/ form_seller formData = "" \/
   finite (parseFloat (form_price formData)) = false ->
   handleSubmit parseFloat parseInt (analyzeRoute backend now) formData =
     mkPageState None (Some "Analysis failed") false) /\
  (form_title formData <> "" -> form_seller formData <> "" ->
   finite (parseFloat (form_price formData)) = true ->
   delivered backend = false ->
   exists r,
     generateMockAnalysis (listingOf parseFloat parseInt formData) now =
       Ok r /\
     handleSubmit parseFloat parseInt (analyzeRoute backend now) formData =
       mkPageState (Some (wire (resultValue r))) None false).
Proof.
  pose proof (props_of_payload parseFloat parseInt formData) as Hp.
  pose proof (invalid_listingOf parseFloat parseInt formData) as Hi.
  split.
  - intros Hbad.
    assert (Hinv : invalid (listingOf parseFloat parseInt formData) = true).
    { rewrite Hi. destruct Hbad as [-> | [-> | ->]]; simpl;
        now rewrite ?orb_true_r. }
    unfold handleSubmit, analyzeRoute.
    rewrite (POST_invalid _ _ backend now Hp Hinv). reflexivity.
  - intros Ht Hs Hprice Hnd.
    assert (Hval : invalid (listingOf parseFloat parseInt formData) = false).
    { rewrite Hi, Hprice.
      apply String.eqb_neq in Ht. apply String.eqb_neq in Hs.
      now rewrite Ht, Hs. }
    destruct (generateMockAnalysis_total
                (listingOf parseFloat parseInt formData) now)
      as (r & Hr); try reflexivity; try apply wire_number_primitive.
    exists r. split; [exact Hr|].
    unfold handleSubmit, analyzeRoute.
    rewrite (POST_valid _ _ backend now Hp Hval),
            (callMLService_not_delivered _ _ _ Hnd), Hr.
    reflexivity.
Qed.

(** A review count that does not parse is sent as [null]: the engine
    takes it for fewer than ten reviews, so a rating of 4.9 or more alone
    raises the perfect-rating signal, but it does not take it for zero
    reviews.  A rating that does not parse raises nothing. *)
Theorem unparsable_review_count (parseFloat parseInt : string -> num)
  (formData : FormData) (l : Locals) :
  locals (listingOf parseFloat parseInt formData) = Ok l ->
  finite (parseInt (form_review_count formData)) = false ->
  zeroReviews l = false /\
  ratingAnomaly l =
    finite (parseFloat (form_rating formData))
    && Num.ge (parseFloat (form_rating formData)) (fin 4.9).
Proof.
  unfold locals, listingOf.
  cbn [title price seller rating review_count category images].
  rewrite !lowered_JStr. cbn [ToPropertyKey ToString bind].
  intros H Hrc. cbn [wire] in H. rewrite Hrc in H.
  destruct (finite (parseFloat (form_price formData)));
    cbn [ToNumber bind] in H;
    destruct (parseFloat (form_rating formData)) as [| | |q];
    cbn [finite js_ge js_lt ToNumber bind andb] in H |- *;
    try (injection H as <-; split; reflexivity);
    destruct (Num.ge (Fin q) (fin 4.9));
    cbn [bind] in H; injection H as <-; split; reflexivity.
Qed.

(** The image count the engine uses for a submission is the number of
    non-empty lines of the images field, so a field of blank lines counts
    as no image. *)
Theorem image_count_of_form (parseFloat parseInt : string -> num)
  (formData : FormData) (l : Locals) :
  locals (listingOf parseFloat parseInt formData) = Ok l ->
  imageCount l =
    List.length
      (filter (fun line => negb (String.eqb line ""))
              (split "010"%char (form_images formData))).
Proof.
  intros Hl.
  destruct (locals_inv _ _ Hl)
    as (_ & _ & _ & _ & _ & _ & _ & _ & _ & _ & _ & _ & _ & Hi).
  rewrite Hi. unfold listingOf.
  cbn [images ToBoolean isArray andb arrayLength].
  rewrite length_map. unfold imageLines.
  destruct (form_images formData); reflexivity.
Qed.

End Runtime.

(* ===================================================================== *)
(** ** Instances on the sample inputs *)
(* ===================================================================== *)

Local Abbreviation S2N := sampleStringToNumber.
Local Abbreviation N2S := sampleNumberToString.

(** The thresholds on the listing "free phone": score 37/220, [safe]. *)
Lemma label_by_thresholds_witness :
  generateMockAnalysis S2N N2S freePhoneListing sampleNow =
    Ok (mkResult (Fin (37 # 220)) safe
          [mkFeature "price_deviation_from_median" (Fin (1 # 55));
           mkFeature "suspicious_words_in_title" (fin 0.15)]
          "v0.1-mock" sampleNow) /\
  labelOf (Fin (37 # 220)) = safe.
Proof.
  split; [reflexivity|].
  exact (proj1 (proj2
    (label_by_thresholds S2N N2S freePhoneListing sampleNow _ eq_refl))).
Defined.

(** C3 (counterexample).  For
    [{title:"free phone", price:1000, seller:"Acme", rating:4.5,
      review_count:120, category:"electronics", images:["a.jpg"]}]
    the explanation lists the price entry (1/55) before the
    suspicious-words entry (0.15): the contributions are not in
    descending order. *)
Lemma explanation_not_descending :
  exists r,
    generateMockAnalysis S2N N2S freePhoneListing sampleNow = Ok r /\
    map contribution (explanation r) = [Fin (1 # 55); fin 0.15] /\
    descending (map contribution (explanation r)) = false.
Proof. eexists. repeat split. Qed.

Lemma explanation_in_declaration_order_witness :
  subseq
    ["price_deviation_from_median"; "suspicious_words_in_title"]
    declarationOrder = true.
Proof.
  exact (proj1 (proj2
    (explanation_in_declaration_order S2N N2S freePhoneListing sampleNow
       _ eq_refl))).
Defined.





(** C8 (counterexample).  In
    [{title:123, price:25, seller:"Acme", rating:4.2, review_count:12}]
    the title is not a string, yet the body passes validation; with the
    backend unreachable the answer is 500 and carries no score.  A body
    that is [null] is answered 500 as well, not 400. *)
Lemma wrong_typed_title_not_rejected :
  exists body,
    props numericTitleBody = Ok body /\
    requiredWellTyped body = false /\
    invalid body = false /\
    POST S2N N2S (Ok numericTitleBody) TransportFailure sampleNow =
      mkResponse (ErrorBody "Internal server error") 500 /\
    POST S2N N2S (Ok JNull) TransportFailure sampleNow =
      mkResponse (ErrorBody "Internal server error") 500.
Proof. eexists. repeat split. Qed.

Lemma validation_gate_witness :
  props lampBody =
    Ok (mkData (JStr "Desk lamp") (JNum (Fin 25)) (JStr "Acme")
          (JNum (Fin 4.2)) (JNum (Fin 12)) (JStr "books") (JStr "a.jpg")) /\
  exists a,
    POST S2N N2S (Ok lampBody) Aborted sampleNow =
      mkResponse (AnalysisBody a) 200.
Proof.
  split; [reflexivity|].
  destruct (proj2 (proj2
    (validation_gate S2N N2S lampBody _ Aborted sampleNow eq_refl))
    eq_refl eq_refl eq_refl eq_refl eq_refl eq_refl) as (a & _ & H & _).
  exists a. exact H.
Defined.



Lemma non_array_images_as_no_images_witness :
  isArray (JStr "a.jpg") = false /\
  generateMockAnalysis S2N N2S
    (withImages freePhoneListing (JStr "a.jpg")) sampleNow =
    Ok (mkResult (Fin (59 # 220)) safe
          [mkFeature "price_deviation_from_median" (Fin (1 # 55));
           mkFeature "suspicious_words_in_title" (fin 0.15);
           mkFeature "no_images" (fin 0.1)]
          "v0.1-mock" sampleNow) /\
  (exists l,
     locals S2N N2S (withImages freePhoneListing (JStr "a.jpg")) = Ok l /\
     imageCount l = 0%nat /\
     In (NoImages, fin 0.1) (contributions l) /\
     Fin (59 # 220) = min (total (contributions l)) (Fin 1)) /\
  In (mkFeature "no_images" (fin 0.1))
     [mkFeature "price_deviation_from_median" (Fin (1 # 55));
      mkFeature "suspicious_words_in_title" (fin 0.15);
      mkFeature "no_images" (fin 0.1)].
Proof.
  split; [reflexivity|]. split; [reflexivity|].
  exact (proj1 (proj2 (proj2
    (non_array_images_as_no_images S2N N2S freePhoneListing (JStr "a.jpg")
       sampleNow eq_refl)))
    (mkResult (Fin (59 # 220)) safe
       [mkFeature "price_deviation_from_median" (Fin (1 # 55));
        mkFeature "suspicious_words_in_title" (fin 0.15);
        mkFeature "no_images" (fin 0.1)]
       "v0.1-mock" sampleNow)
    eq_refl).
Defined.

(* ===================================================================== *)
(** ** Instances of the further properties *)
(* ===================================================================== *)

Lemma label_monotone_witness :
  Num.le (Fin (909 # 50000)) (fin 0.4) = true /\
  (rank safe <= rank suspicious)%nat.
Proof.
  split; [reflexivity|].
  exact (label_monotone S2N N2S iphoneListing (emptyListing (JStr ""))
           sampleNow sampleNow _ _ eq_refl eq_refl eq_refl).
Defined.

Lemma explanation_entries_bounded_witness :
  NoDup ["price_deviation_from_median"; "suspicious_words_in_title"].
Proof.
  exact (proj2 (explanation_entries_bounded S2N N2S freePhoneListing
                  sampleNow _ eq_refl)).
Defined.

Lemma score_nan_iff_witness :
  ToPropertyKey N2S (JStr "constructor") = Ok "constructor" /\
  (NaN = NaN <->
   categoryRanges_get "constructor" = Some Inherited \/ Fin 25 = NaN).
Proof.
  split; [reflexivity|].
  exact (proj1 (score_nan_iff S2N N2S constructorListing sampleNow _
                  "constructor" (Fin 25) eq_refl eq_refl eq_refl)).
Defined.

Lemma many_words_raise_label_witness :
  locals S2N N2S loudListing =
    Ok (mkLocals 5 (Fin 1100) (Fin (909 # 10000)) false false false 1) /\
  ((5 <= 5)%nat -> high_risk = high_risk).
Proof.
  split; [reflexivity|].
  exact (proj2 (many_words_raise_label S2N N2S loudListing sampleNow _ _
                  eq_refl eq_refl)).
Defined.

Lemma no_word_never_high_risk_witness :
  isAscii "iPhone 15 Pro Max" = true /\
  locals S2N N2S iphoneListing =
    Ok (mkLocals 0 (Fin 1100) (Fin (909 # 10000)) false false false 1) /\
  Num.le (Fin (909 # 50000)) (fin 0.65) = true /\ safe <> high_risk.
Proof.
  split; [reflexivity|]. split; [reflexivity|].
  apply (no_word_never_high_risk S2N N2S iphoneListing sampleNow
           (mkResult (Fin (909 # 50000)) safe
              [mkFeature "price_deviation_from_median" (Fin (909 # 50000))]
              "v0.1-mock" sampleNow)
           (mkLocals 0 (Fin 1100) (Fin (909 # 10000)) false false false 1)
           "electronics").
  - reflexivity.
  - reflexivity.
  - reflexivity.
  - vm_compute. discriminate.
  - reflexivity.
  - intros t Ht. injection Ht as <-. reflexivity.
  - reflexivity.
Defined.

Lemma images_never_raise_score_witness :
  Num.lt (Fin (5909 # 50000)) (Fin (909 # 50000)) = false /\
  (rank safe <= rank safe)%nat.
Proof.
  exact (images_never_raise_score S2N N2S iphoneListing
           [JStr "https://...jpg"] sampleNow _ _ eq_refl eq_refl).
Defined.


Lemma price_symmetric_witness :
  median (rangeFor "electronics") = Fin 1100 /\
  generateMockAnalysis S2N N2S
    (withPrice iphoneListing (JNum (Fin 1000))) sampleNow =
  generateMockAnalysis S2N N2S
    (withPrice iphoneListing (JNum (Fin 1200))) sampleNow.
Proof.
  split; [reflexivity|].
  apply (price_symmetric S2N N2S iphoneListing "electronics" 1100
           1000%Z 1200%Z sampleNow).
  - reflexivity.
  - reflexivity.
  - vm_compute. discriminate.
  - vm_compute. discriminate.
  - reflexivity.
Defined.


Lemma engine_selection_witness :
  props numericTitleBody =
    Ok (mkData (JNum (Fin 123)) (JNum (Fin 25)) (JStr "Acme")
          (JNum (Fin 4.2)) (JNum (Fin 12)) JUndefined JUndefined) /\
  POST S2N N2S (Ok numericTitleBody) (Responded 200 (Ok (JStr "anything")))
    sampleNow =
    mkResponse (AnalysisBody (FromService (JStr "anything"))) 200.
Proof.
  split; [reflexivity|].
  exact (proj1 (engine_selection S2N N2S numericTitleBody _ sampleNow
                  eq_refl eq_refl) 200%nat (JStr "anything") eq_refl).
Defined.

Lemma non_object_body_witness :
  POST S2N N2S (Ok (JArr [JStr "free"])) Aborted sampleNow =
    mkResponse (ErrorBody "Missing or invalid required fields") 400.
Proof.
  exact (proj2 (proj2 (non_object_body S2N N2S Aborted sampleNow))
           (JArr [JStr "free"]) I).
Defined.

Lemma non_string_text_is_internal_error_witness :
  props arrayTitleBody =
    Ok (mkData (JArr [JStr "free"]) (JNum (Fin 25)) (JStr "Acme")
          (JNum (Fin 4.2)) (JNum (Fin 12)) JUndefined JUndefined) /\
  POST S2N N2S (Ok arrayTitleBody) (Responded 502 (Ok JNull)) sampleNow =
    mkResponse (ErrorBody "Internal server error") 500.
Proof.
  split; [reflexivity|].
  exact (proj2 (non_string_text_is_internal_error S2N N2S arrayTitleBody _
                  (Responded 502 (Ok JNull)) sampleNow
                  eq_refl eq_refl (or_introl eq_refl) eq_refl)).
Defined.

Lemma formatFeatureName_shape_witness :
  isAscii "price_deviation_from_median" = true /\
  formatFeatureName "price_deviation_from_median" =
    "Price Deviation From Median" /\
  String.length (formatFeatureName "price_deviation_from_median") = 27%nat.
Proof.
  split; [reflexivity|]. split; [reflexivity|].
  exact (proj1 (formatFeatureName_shape "price_deviation_from_median"
                  eq_refl)).
Defined.

Lemma bar_widths_average_100_witness :
  map (barWidth [mkFeature "price_deviation_from_median" (Fin (1 # 55));
                 mkFeature "suspicious_words_in_title" (fin 0.15)])
      [mkFeature "price_deviation_from_median" (Fin (1 # 55));
       mkFeature "suspicious_words_in_title" (fin 0.15)] =
    [Fin (800 # 37); Fin (6600 # 37)] /\
  exists w,
    sumOf [Fin (800 # 37); Fin (6600 # 37)] = Fin w /\
    w == 100 * inject_Z (Z.of_nat 2).
Proof.
  split; [reflexivity|].
  exact (proj1 (bar_widths_average_100 S2N N2S freePhoneListing sampleNow _
                  eq_refl)).
Defined.

Lemma card_percentage_witness :
  exists p,
    percentage S2N N2S (JNull) = Ok (Fin p) /\ 0 <= p <= 100 /\
    (NaN = NaN -> p == 0 /\ strokeColor (JStr "high_risk") = "#dc2626").
Proof.
  exact (card_percentage S2N N2S constructorListing sampleNow _ eq_refl).
Defined.

Lemma submit_outcome_witness :
  handleSubmit sampleParse sampleParse
    (analyzeRoute S2N N2S Aborted sampleNow) blankPriceForm =
    mkPageState None (Some "Analysis failed") false.
Proof.
  exact (proj1 (submit_outcome S2N N2S sampleParse sampleParse
                  blankPriceForm Aborted sampleNow)
           (or_intror (or_intror eq_refl))).
Defined.

Lemma unparsable_review_count_witness :
  listingOf sampleParse sampleParse blankReviewsForm =
    mkData (JStr "Desk lamp") (JNum (Fin 25)) (JStr "Acme") (JNum (Fin 5))
      JNull (JStr "books") (JArr [JStr "a.jpg"]) /\
  false = false /\ true = true && Num.ge (Fin 5) (fin 4.9).
Proof.
  split; [reflexivity|].
  exact (unparsable_review_count S2N N2S sampleParse sampleParse
           blankReviewsForm _ eq_refl eq_refl).
Defined.

Lemma image_count_of_form_witness :
  1%nat =
  List.length
    (filter (fun line => negb (String.eqb line ""))
            (split "010"%char "a.jpg")).
Proof.
  exact (image_count_of_form S2N N2S sampleParse sampleParse
           blankReviewsForm _ eq_refl).
Defined.
